(** * nice-clock: the stock quote service of [scripts/stock-api.py]

    A shallow embedding of the Flask handler [stock_api] and of its helper
    [calulcate_stock_changes], with the market-data provider (yfinance) as a
    record of answers and every provider call logged in a trace.

    Numbers are IEEE 754 binary64 values, Rocq's primitive [float]: this is
    the representation of Python's [float] and of numpy's [float64]. *)

From Stdlib Require Import ZArith Floats Lia.
From stdpp Require Import base option list gmap strings.

Set Warnings "-inexact-float,-clear-no-such-hyp".

Open Scope Z_scope.
Open Scope string_scope.

(** ** Python values and exceptions *)

(** The values the handler reads from the provider's info dictionary and
    writes into the response: floats, strings and [None].  Price fields are
    floating-point values (spec, section 3); a string or [None] in their place
    makes the arithmetic raise [TypeError].  Python integers are not part of
    the model: what is stated about the value of a price field is stated of
    these three kinds. *)
Inductive pyval : Type :=
  | PyFloat (f : float)
  | PyStr (s : string)
  | PyNone.

Inductive exn : Type :=
  | KeyError (key : string)
  | IndexError
  | TypeError
  | ZeroDivisionError
  | ProviderError (msg : string).

Inductive result (A : Type) : Type :=
  | Ok (a : A)
  | Raise (e : exn).
Arguments Ok {A} a.
Arguments Raise {A} e.

(** ** Rounding to two decimals *)

(** Quotient of [a] by [b > 0] rounded to the nearest integer, ties to the
    even one. *)
Definition rne_div (a b : Z) : Z :=
  let q := a / b in
  match (2 * (a mod b)) ?= b with
  | Lt => q
  | Gt => q + 1
  | Eq => if Z.even q then q else q + 1
  end.

(** The double nearest to [n / 100] with the sign [s]: what reading the
    decimal string of [n] hundredths back gives ([strtod], correctly
    rounded). *)
Definition of_hundredths (s : bool) (n : Z) : float :=
  match n with
  | Zpos k =>
      SF2Prim (SFdiv prec emax (S754_finite s k 0) (S754_finite false 100 0))
  | _ => SF2Prim (S754_zero s)
  end.

(** [round(x, 2)] of a Python [float] (CPython, [float.__round__] with
    [ndigits = 2]): a NaN or an infinity is returned as it is; a finite [x]
    is printed with two decimals, correctly rounded from its exact binary
    value with ties to even, and the decimal string is read back to the
    nearest double.  [m * 2^e] is the exact value of [|x|]; with [0 <= e]
    it is an integer and [x] is returned. *)
Definition float_round2 (x : float) : float :=
  match Prim2SF x with
  | S754_finite s m e =>
      if (0 <=? e)%Z then x
      else of_hundredths s (rne_div (Zpos m * 100) (2 ^ (- e)))
  | _ => x
  end.

(** C [rint]: the nearest integer in the current (to nearest, ties to even)
    rounding mode, the sign kept. *)
Definition rint (y : float) : float :=
  match Prim2SF y with
  | S754_finite s m e =>
      if (0 <=? e)%Z then y
      else SF2Prim (binary_normalize prec emax
                      (cond_Zopp s (rne_div (Zpos m) (2 ^ (- e)))) 0 s)
  | _ => y
  end.

(** [round(x, 2)] of a numpy [float64] scalar ([numpy.round] with
    [decimals = 2]): multiply by [10**2], [rint], divide by [10**2], all in
    binary64. *)
Definition np_round2 (x : float) : float :=
  (rint (x * 100) / 100)%float.

(** ** Python arithmetic on values *)

(** [a - b] and [a * b]: floats never raise here. *)
Definition py_sub (a b : pyval) : result pyval :=
  match a, b with
  | PyFloat x, PyFloat y => Ok (PyFloat (x - y))
  | _, _ => Raise TypeError
  end.

Definition py_mul (a b : pyval) : result pyval :=
  match a, b with
  | PyFloat x, PyFloat y => Ok (PyFloat (x * y))
  | _, _ => Raise TypeError
  end.

(** [a / b]: a zero divisor (of either sign) raises. *)
Definition py_truediv (a b : pyval) : result pyval :=
  match a, b with
  | PyFloat x, PyFloat y =>
      if is_zero y then Raise ZeroDivisionError else Ok (PyFloat (x / y))
  | _, _ => Raise TypeError
  end.

(** The builtin [round(v, 2)]. *)
Definition py_round2 (v : pyval) : result pyval :=
  match v with
  | PyFloat x => Ok (PyFloat (float_round2 x))
  | _ => Raise TypeError
  end.

(** ** The provider and the effects of a request *)

(** A pandas data frame, reduced to what the handler reads: its named
    columns of [float64] values, in row order. *)
Abbreviation frame := (gmap string (list float)).

(** The info dictionary of [Ticker.get_info()]. *)
Abbreviation info_dict := (gmap string pyval).

(** The market-data provider behind [yf.Ticker]: what [get_info()] and
    [history(period)] answer for a symbol, or the exception they raise. *)
Record provider : Type := {
  info_of : string -> result info_dict;
  history_of : string -> string -> result frame
}.

(** A network call made to the provider. *)
Inductive call : Type :=
  | GetInfo (symbol : string)
  | History (symbol period : string).

(** A computation that may raise and that logs its provider calls, oldest
    first. *)
Definition M (A : Type) : Type := list call -> result A * list call.

#[global] Instance M_ret : MRet M := fun A a log => (Ok a, log).

#[global] Instance M_bind : MBind M := fun A B k m log =>
  match m log with
  | (Ok a, log') => k a log'
  | (Raise e, log') => (Raise e, log')
  end.

Definition lift {A : Type} (r : result A) : M A := fun log => (r, log).

Definition run {A : Type} (m : M A) : result A * list call := m [].

(** [yf.Ticker(stock)]: the ticker object the calls are made on, named by
    the path parameter it is built from.  The model starts once the
    constructor has returned; what the library does inside it (changing the
    case of the symbol, raising for some symbols) is outside the model. *)
Definition Ticker (stock : string) : string := stock.

Definition get_info (P : provider) (ticker : string) : M info_dict :=
  fun log => (info_of P ticker, (log ++ [GetInfo ticker])%list).

Definition history (P : provider) (ticker period : string) : M frame :=
  fun log => (history_of P ticker period, (log ++ [History ticker period])%list).

(** [d[key]] on a dictionary or on a frame. *)
Definition getitem {V : Type} (d : gmap string V) (key : string) : M V :=
  match d !! key with
  | Some v => mret v
  | None => lift (Raise (KeyError key))
  end.

(** [series.iloc[0]] and [series.iloc[-1]]. *)
Definition iloc_first (series : list float) : M float :=
  match head series with
  | Some x => mret x
  | None => lift (Raise IndexError)
  end.

Definition iloc_last (series : list float) : M float :=
  match last series with
  | Some x => mret x
  | None => lift (Raise IndexError)
  end.

(** ** The handler *)

(** A Flask response: the status code and the dictionary given to
    [jsonify]. *)
Record response : Type := {
  status : Z;
  body : gmap string pyval
}.

(** The body of the loop of [calulcate_stock_changes] for one [date]; the
    arithmetic is numpy's, which does not raise on a zero divisor. *)
Definition stock_change (P : provider) (ticker date : string)
    (data : gmap string pyval) : M (gmap string pyval) :=
  hist ← history P ticker date;
  close0 ← getitem hist "Close";
  start_price ← iloc_first close0;
  close1 ← getitem hist "Close";
  end_price ← iloc_last close1;
  let pct_change := ((end_price - start_price) / start_price * 100)%float in
  mret (<[date := PyFloat (np_round2 pct_change)]> data).

Fixpoint for_dates (P : provider) (ticker : string) (dates : list string)
    (data : gmap string pyval) : M (gmap string pyval) :=
  match dates with
  | [] => mret data
  | date :: rest =>
      data' ← stock_change P ticker date data;
      for_dates P ticker rest data'
  end.

Definition calulcate_stock_changes (P : provider) (ticker : string)
    : M (gmap string pyval) :=
  for_dates P ticker ["1mo"; "6mo"; "1y"] ∅.

Definition stock_api (P : provider) (stock : string) : M response :=
  let ticker := Ticker stock in
  info ← get_info P ticker;
  match info !! "regularMarketPrice" with
  | None =>
      mret {| status := 400;
              body := {[ "error" := PyStr "Invalid ticker!" ]} |}
  | Some _ =>
      previous_close ← getitem info "previousClose";
      current_price ← getitem info "regularMarketPrice";
      diff ← lift (py_sub current_price previous_close);
      quot ← lift (py_truediv diff previous_close);
      (* the int literal 100 meets a float: it is taken as 100.0 *)
      prod ← lift (py_mul quot (PyFloat 100));
      percent_change ← lift (py_round2 prod);
      historical_percents ← calulcate_stock_changes P ticker;
      price0 ← getitem info "regularMarketPrice";
      price ← lift (py_round2 price0);
      percent_1mo ← getitem historical_percents "1mo";
      percent_6mo ← getitem historical_percents "6mo";
      percent_1y ← getitem historical_percents "1y";
      mret {| status := 200;
              body := list_to_map
                        [("stock", PyStr stock);
                         ("price", price);
                         ("percent", percent_change);
                         ("percent_1mo", percent_1mo);
                         ("percent_6mo", percent_6mo);
                         ("percent_1y", percent_1y)] |}
  end.

(** What the client sees: Flask answers an exception that the view does not
    catch with a generic 500 response. *)
Definition http_status (r : result response) : Z :=
  match r with
  | Ok resp => status resp
  | Raise _ => 500
  end.

(** ** Notions used in the statements *)

(** The closes a window's percent is computed from: the frame the provider
    answers for [date] has a [Close] column that starts at [s] and ends at
    [e]. *)
Definition window_closes (P : provider) (ticker date : string)
    (s e : float) : Prop :=
  exists (fr : frame) (closes : list float),
    history_of P ticker date = Ok fr /\ fr !! "Close" = Some closes /\
    head closes = Some s /\ last closes = Some e.

(** The percent of a window, as [stock_change] computes it from the first
    and last close. *)
Definition window_percent (s e : float) : pyval :=
  PyFloat (np_round2 ((e - s) / s * 100)%float).

(** The dictionary of a success response. *)
Definition quote_body (stock : string) (c p s1 e1 s2 e2 s3 e3 : float)
    : gmap string pyval :=
  list_to_map
    [("stock", PyStr stock);
     ("price", PyFloat (float_round2 c));
     ("percent", PyFloat (float_round2 ((c - p) / p * 100)%float));
     ("percent_1mo", window_percent s1 e1);
     ("percent_6mo", window_percent s2 e2);
     ("percent_1y", window_percent s3 e3)].

(** The provider knows the ticker: both price fields are floats and the
    previous close is not zero. *)
Definition valid_quote (info : info_dict) (c p : float) : Prop :=
  info !! "regularMarketPrice" = Some (PyFloat c) /\
  info !! "previousClose" = Some (PyFloat p) /\
  is_zero p = false.

(** The keys of a success response. *)
Definition quote_fields : gset string :=
  {[ "stock"; "price"; "percent"; "percent_1mo"; "percent_6mo"; "percent_1y" ]}.

(** The response of the handler to an unknown ticker. *)
Definition invalid_ticker_response : response :=
  {| status := 400; body := {[ "error" := PyStr "Invalid ticker!" ]} |}.

(** ** Stub providers

    A provider that answers every symbol with the same info dictionary and
    the same frame for each of the periods [1mo], [6mo] and [1y] (spec,
    section 9: the handler is tested against a stub provider). *)
Definition stub_provider (info : result info_dict) (h1mo h6mo h1y : result frame)
    : provider :=
  {| info_of := fun _ => info;
     history_of := fun _ period =>
       if String.eqb period "1mo" then h1mo
       else if String.eqb period "6mo" then h6mo
       else if String.eqb period "1y" then h1y
       else Raise (ProviderError "unknown period") |}.

Definition close_frame (closes : list float) : result frame :=
  Ok {[ "Close" := closes ]}.

Definition quote_info (previous_close current_price : float) : info_dict :=
  {[ "previousClose" := PyFloat previous_close;
     "regularMarketPrice" := PyFloat current_price ]}.

(** The quote of the spec's scenario (section 8), asked in lower case. *)
Definition demo_provider : provider :=
  stub_provider (Ok (quote_info 150 153))
    (close_frame [140; 147.5; 153]%float)
    (close_frame [120; 131.25; 153]%float)
    (close_frame [100; 99.5; 153]%float).

Definition demo_response : response :=
  {| status := 200;
     body := quote_body "aapl" 153 150 140 153 120 153 100 153 |}.

Definition demo_log : list call :=
  [GetInfo "aapl"; History "aapl" "1mo"; History "aapl" "6mo";
   History "aapl" "1y"].

(** The quotes of the spec's properties (section 8): previous close 100
    and price 110, closes from 50 to 55 and from 200 to 190. *)
Definition sample_provider : provider :=
  stub_provider (Ok (quote_info 100 110))
    (close_frame [50; 52.25; 55]%float)
    (close_frame [200; 210.5; 190]%float)
    (close_frame [80; 80]%float).

Definition sample_response : response :=
  {| status := 200;
     body := quote_body "MSFT" 110 100 50 55 200 190 80 80 |}.

Definition sample_log : list call :=
  [GetInfo "MSFT"; History "MSFT" "1mo"; History "MSFT" "6mo";
   History "MSFT" "1y"].

(** A provider that agrees with [demo_provider] on what the handler asks
    for [aapl] and differs elsewhere: on the other symbols and on the
    period [5d]. *)
Definition other_provider : provider :=
  {| info_of := fun symbol =>
       if String.eqb symbol "aapl" then Ok (quote_info 150 153)
       else Raise (ProviderError "offline");
     history_of := fun symbol period =>
       if String.eqb period "5d" then close_frame [1]%float
       else history_of demo_provider symbol period |}.

(** The three periods and the response field of each. *)
Definition window_fields : list (string * string) :=
  [("1mo", "percent_1mo"); ("6mo", "percent_6mo"); ("1y", "percent_1y")].

(** ** What the handler reads of the provider's answers *)

(** The three periods of [calulcate_stock_changes], in the order of its
    loop. *)
Definition periods : list string := ["1mo"; "6mo"; "1y"].

(** Of the answer to a history call the loop body reads the first and the
    last close, or ends in the exception met on the way: the provider's own,
    the [KeyError] of a frame without a [Close] column, the [IndexError] of
    an empty column. *)
Definition observed_window (r : result frame) : result (float * float) :=
  match r with
  | Raise ex => Raise ex
  | Ok fr =>
      match fr !! "Close" with
      | None => Raise (KeyError "Close")
      | Some closes =>
          match head closes, last closes with
          | Some s, Some e => Ok (s, e)
          | _, _ => Raise IndexError
          end
      end
  end.

(** Of the answer to the info call the handler reads two keys. *)
Definition observed_quote (r : result info_dict)
    : result (option pyval * option pyval) :=
  match r with
  | Raise ex => Raise ex
  | Ok info => Ok (info !! "regularMarketPrice", info !! "previousClose")
  end.

(** The answers of [demo_provider] with what the handler does not read
    changed: other columns, other closes in between, other info keys. *)
Definition noisy_provider : provider :=
  stub_provider
    (Ok (<["shortName" := PyStr "Apple Inc."]> (quote_info 150 153)))
    (Ok {[ "Open" := [139; 152]%float;
           "Close" := [140; 141; 142; 153]%float ]})
    (Ok {[ "Close" := [120; 153]%float; "Volume" := [1000]%float ]})
    (close_frame [100; 153]%float).

(** A listing that started at a close of zero over the last month and has
    a single row over the last six months. *)
Definition edge_provider : provider :=
  stub_provider (Ok (quote_info 150 153))
    (close_frame [0; 2.5; 5]%float)
    (close_frame [42.5]%float)
    (close_frame [100; 153]%float).

Definition edge_response : response :=
  {| status := 200;
     body := quote_body "NEWCO" 153 150 0 5 42.5 42.5 100 153 |}.

Definition edge_log : list call :=
  [GetInfo "NEWCO"; History "NEWCO" "1mo"; History "NEWCO" "6mo";
   History "NEWCO" "1y"].

(** ** The logo script of [scripts/pull_team_logo.py]

    [import_logo] is a sequence of calls to the network, the file system
    and the imaging library.  Each call may raise; the system answers it, and
    the calls made are logged, oldest first. *)

Definition LOGO_SIZE : Z := 25.

(** An image as the imaging library holds it: its size and its pixels. *)
Record image : Type := {
  img_width : Z;
  img_height : Z;
  img_pixels : list Byte.byte
}.

Inductive io : Type :=
  | HttpGet (url : string)
  | FileWrite (path : string) (content : list Byte.byte)
  | ImageOpen (path : string)
  | ImageResize (width height : Z)
  | ImageSave (path : string)
  | FileRemove (path : string).

(** The answers of the world around the script: [requests.get(url).content],
    writing a file, [Image.open] on a file with the given content,
    [Image.resize], [Image.save] and [os.remove]. *)
Record system : Type := {
  http_get : string -> result (list Byte.byte);
  file_write : string -> list Byte.byte -> result unit;
  image_open : list Byte.byte -> result image;
  image_resize : image -> Z -> Z -> result image;
  image_save : image -> string -> result unit;
  file_remove : string -> result unit
}.

Definition IO (A : Type) : Type := list io -> result A * list io.

#[global] Instance IO_ret : MRet IO := fun A a log => (Ok a, log).

#[global] Instance IO_bind : MBind IO := fun A B k m log =>
  match m log with
  | (Ok a, log') => k a log'
  | (Raise e, log') => (Raise e, log')
  end.

(** One call: it is logged and the system's answer is its outcome. *)
Definition perform {A : Type} (op : io) (answer : result A) : IO A :=
  fun log => (answer, (log ++ [op])%list).

Definition run_io {A : Type} (m : IO A) : result A * list io := m [].

Definition logo_url (team_div team_id : string) : string :=
  "https://a.espncdn.com/i/teamlogos/" ++ team_div ++ "/500-dark/"
  ++ team_id ++ ".png".

Definition import_logo (S : system) (team_div team_id : string) : IO unit :=
  let url := logo_url team_div team_id in
  content ← perform (HttpGet url) (http_get S url);
  _ ← perform (FileWrite "tmp.png" content) (file_write S "tmp.png" content);
  image ← perform (ImageOpen "tmp.png") (image_open S content);
  resize ← perform (ImageResize LOGO_SIZE LOGO_SIZE)
             (image_resize S image LOGO_SIZE LOGO_SIZE);
  _ ← perform (ImageSave (team_id ++ ".ppm"))
        (image_save S resize (team_id ++ ".ppm"));
  perform (FileRemove "tmp.png") (file_remove S "tmp.png").

(** A system on which every step succeeds, for a 500 by 500 logo. *)
Definition working_system : system :=
  {| http_get := fun _ => Ok [Byte.x89; Byte.x50; Byte.x4e; Byte.x47];
     file_write := fun _ _ => Ok tt;
     image_open := fun _ =>
       Ok {| img_width := 500; img_height := 500; img_pixels := [] |};
     image_resize := fun _ w h =>
       Ok {| img_width := w; img_height := h; img_pixels := [] |};
     image_save := fun _ _ => Ok tt;
     file_remove := fun _ => Ok tt |}.

(** ** Rounding, as the spec words it

    [rounded_to_hundredths x r]: [r] is [x] rounded to two decimal places,
    to the nearest with ties to even.  A NaN, an infinity, a zero and an
    integer are their own rounding.  Otherwise [m * 2^e], with [e < 0], is
    the exact value of [|x|], [n] is the integer nearest to a hundred times
    it (the even one when two are equally near), and [r] is the binary64
    value of [n / 100], the correctly rounded quotient of IEEE 754, with
    the sign of [x]. *)
Definition rounded_to_hundredths (x r : float) : Prop :=
  match Prim2SF x with
  | S754_finite s m e =>
      if (0 <=? e)%Z then r = x
      else
        exists n : Z,
          2 * Z.abs (Zpos m * 100 - n * 2 ^ (- e)) <= 2 ^ (- e) /\
          (2 * Z.abs (Zpos m * 100 - n * 2 ^ (- e)) = 2 ^ (- e) ->
           Z.even n = true) /\
          r = SF2Prim
                match n with
                | Zpos k =>
                    SFdiv prec emax (S754_finite s k 0)
                      (S754_finite false 100 0)
                | _ => S754_zero s
                end
  | _ => r = x
  end.

(** [times100_rint_div100 x r]: [r] is obtained from [x] by multiplying by
    100 in binary64, rounding the product to the nearest integer (the even
    one when two are equally near) and dividing by 100 in binary64.
    [m * 2^e] is the exact value of the binary64 product. *)
Definition times100_rint_div100 (x r : float) : Prop :=
  match Prim2SF (x * 100)%float with
  | S754_finite s m e =>
      if (0 <=? e)%Z then r = (x * 100 / 100)%float
      else
        exists n : Z,
          2 * Z.abs (Zpos m - n * 2 ^ (- e)) <= 2 ^ (- e) /\
          (2 * Z.abs (Zpos m - n * 2 ^ (- e)) = 2 ^ (- e) ->
           Z.even n = true) /\
          r = (SF2Prim (binary_normalize prec emax (cond_Zopp s n) 0 s)
               / 100)%float
  | _ => r = (x * 100 / 100)%float
  end.

(** A quote whose price and percents all need rounding. *)
Definition rounding_provider : provider :=
  stub_provider (Ok (quote_info 140 153.456))
    (close_frame [40; 326.97]%float)
    (close_frame [140; 147; 153]%float)
    (close_frame [3; 3.5; 4]%float).

Definition rounding_response : response :=
  {| status := 200;
     body := quote_body "ACME" 153.456 140 40 326.97 140 153 3 4 |}.

Definition rounding_log : list call :=
  [GetInfo "ACME"; History "ACME" "1mo"; History "ACME" "6mo";
   History "ACME" "1y"].

(** ** Reasoning about computations *)

Lemma bind_ok {A B : Type} (m : M A) (k : A -> M B) log a log' :
  m log = (Ok a, log') -> (m ≫= k) log = k a log'.
Proof. intros H. unfold mbind, M_bind. now rewrite H. Qed.

Lemma bind_raise {A B : Type} (m : M A) (k : A -> M B) log e log' :
  m log = (Raise e, log') -> (m ≫= k) log = (Raise e, log').
Proof. intros H. unfold mbind, M_bind. now rewrite H. Qed.

Lemma bind_inv {A B : Type} (m : M A) (k : A -> M B) log b log'' :
  (m ≫= k) log = (Ok b, log'') ->
  exists a log', m log = (Ok a, log') /\ k a log' = (Ok b, log'').
Proof.
  unfold mbind, M_bind. destruct (m log) as [[a|e] log'] eqn:E; intros H.
  - exists a, log'. split; [reflexivity | exact H].
  - discriminate H.
Qed.

Lemma ret_inv {A : Type} (a b : A) log log' :
  mret (M := M) a log = (Ok b, log') -> a = b /\ log = log'.
Proof. unfold mret, M_ret. intros H. now inversion H. Qed.

Lemma lift_inv {A : Type} (r : result A) (b : A) log log' :
  lift r log = (Ok b, log') -> r = Ok b /\ log = log'.
Proof. unfold lift. intros H. now inversion H. Qed.

Lemma getitem_inv {V : Type} (d : gmap string V) key v log log' :
  getitem d key log = (Ok v, log') -> d !! key = Some v /\ log = log'.
Proof.
  unfold getitem. destruct (d !! key) as [w|]; intros H.
  - apply ret_inv in H as [-> ->]. now split.
  - apply lift_inv in H as [H _]. discriminate H.
Qed.

Lemma getitem_some {V : Type} (d : gmap string V) key v log :
  d !! key = Some v -> getitem d key log = (Ok v, log).
Proof. unfold getitem. now intros ->. Qed.

Lemma getitem_none {V : Type} (d : gmap string V) key log :
  d !! key = None -> getitem d key log = (Raise (KeyError key), log).
Proof. unfold getitem. now intros ->. Qed.

Lemma stock_change_ok P ticker date data log s e :
  window_closes P ticker date s e ->
  stock_change P ticker date data log =
    (Ok (<[date := PyFloat (np_round2 ((e - s) / s * 100)%float)]> data),
     (log ++ [History ticker date])%list).
Proof.
  intros (fr & closes & Hh & Hc & Hs & He). unfold stock_change.
  erewrite bind_ok by (unfold history; rewrite Hh; reflexivity).
  erewrite bind_ok by (apply getitem_some, Hc).
  erewrite bind_ok by (unfold iloc_first; rewrite Hs; reflexivity).
  erewrite bind_ok by (apply getitem_some, Hc).
  erewrite bind_ok by (unfold iloc_last; rewrite He; reflexivity).
  reflexivity.
Qed.

Lemma stock_change_inv P ticker date data log data' log' :
  stock_change P ticker date data log = (Ok data', log') ->
  exists s e,
    window_closes P ticker date s e /\
    data' = <[date := PyFloat (np_round2 ((e - s) / s * 100)%float)]> data /\
    log' = (log ++ [History ticker date])%list.
Proof.
  unfold stock_change. intros H.
  apply bind_inv in H as (fr & l1 & Hh & H).
  apply bind_inv in H as (c0 & l2 & Hc0 & H).
  apply bind_inv in H as (s & l3 & Hs & H).
  apply bind_inv in H as (c1 & l4 & Hc1 & H).
  apply bind_inv in H as (e & l5 & He & H).
  apply ret_inv in H as [<- <-].
  unfold history in Hh. inversion Hh as [[Hfr Hl1]]; subst l1; clear Hh.
  apply getitem_inv in Hc0 as [Hc0 <-].
  apply getitem_inv in Hc1 as [Hc1 ->].
  assert (c1 = c0) as -> by congruence.
  unfold iloc_first in Hs. destruct (head c0) as [s'|] eqn:Hhd;
    [apply ret_inv in Hs as [-> <-] | apply lift_inv in Hs as [Hs _]; discriminate Hs].
  unfold iloc_last in He. destruct (last c0) as [e'|] eqn:Hla;
    [apply ret_inv in He as [-> <-] | apply lift_inv in He as [He _]; discriminate He].
  exists s, e. split; [| split; reflexivity].
  exists fr, c0. repeat split; assumption.
Qed.

(** An empty [Close] column: [iloc[0]] raises, after the fetch. *)
Lemma stock_change_empty P ticker date data log fr :
  history_of P ticker date = Ok fr -> fr !! "Close" = Some [] ->
  stock_change P ticker date data log =
    (Raise IndexError, (log ++ [History ticker date])%list).
Proof.
  intros Hh Hc. unfold stock_change.
  erewrite bind_ok by (unfold history; rewrite Hh; reflexivity).
  erewrite bind_ok by (apply getitem_some, Hc).
  reflexivity.
Qed.

Lemma calulcate_stock_changes_ok P ticker log s1 e1 s2 e2 s3 e3 :
  window_closes P ticker "1mo" s1 e1 ->
  window_closes P ticker "6mo" s2 e2 ->
  window_closes P ticker "1y" s3 e3 ->
  calulcate_stock_changes P ticker log =
    (Ok (<["1y" := window_percent s3 e3]>
           (<["6mo" := window_percent s2 e2]>
              (<["1mo" := window_percent s1 e1]> ∅))),
     (log ++ [History ticker "1mo"; History ticker "6mo"; History ticker "1y"])%list).
Proof.
  intros H1 H2 H3. unfold calulcate_stock_changes, for_dates.
  erewrite bind_ok by (apply stock_change_ok, H1).
  erewrite bind_ok by (apply stock_change_ok, H2).
  erewrite bind_ok by (apply stock_change_ok, H3).
  unfold mret, M_ret, window_percent. now rewrite <- !app_assoc.
Qed.

Lemma calulcate_stock_changes_inv P ticker log data log' :
  calulcate_stock_changes P ticker log = (Ok data, log') ->
  exists s1 e1 s2 e2 s3 e3,
    window_closes P ticker "1mo" s1 e1 /\
    window_closes P ticker "6mo" s2 e2 /\
    window_closes P ticker "1y" s3 e3.
Proof.
  unfold calulcate_stock_changes, for_dates. intros H.
  apply bind_inv in H as (d1 & l1 & H1 & H).
  apply bind_inv in H as (d2 & l2 & H2 & H).
  apply bind_inv in H as (d3 & l3 & H3 & _).
  apply stock_change_inv in H1 as (s1 & e1 & W1 & _).
  apply stock_change_inv in H2 as (s2 & e2 & W2 & _).
  apply stock_change_inv in H3 as (s3 & e3 & W3 & _).
  exists s1, e1, s2, e2, s3, e3. auto.
Qed.

(** A window's first and last close are determined by the provider. *)
Lemma window_closes_fun P ticker date s e s' e' :
  window_closes P ticker date s e -> window_closes P ticker date s' e' ->
  s = s' /\ e = e'.
Proof.
  intros (fr & cl & Hh & Hc & Hs & He) (fr' & cl' & Hh' & Hc' & Hs' & He').
  assert (fr' = fr) as -> by congruence.
  assert (cl' = cl) as -> by congruence.
  split; congruence.
Qed.

Lemma stock_api_valid P stock info c p s1 e1 s2 e2 s3 e3 :
  info_of P stock = Ok info ->
  valid_quote info c p ->
  window_closes P stock "1mo" s1 e1 ->
  window_closes P stock "6mo" s2 e2 ->
  window_closes P stock "1y" s3 e3 ->
  run (stock_api P stock) =
    (Ok {| status := 200;
           body := quote_body stock c p s1 e1 s2 e2 s3 e3 |},
     [GetInfo stock; History stock "1mo"; History stock "6mo";
      History stock "1y"]).
Proof.
  intros Hi (Hc & Hp & Hz) W1 W2 W3. unfold run, stock_api, Ticker.
  erewrite bind_ok by (unfold get_info; rewrite Hi; reflexivity).
  rewrite Hc.
  erewrite bind_ok by (apply getitem_some, Hp).
  erewrite bind_ok by (apply getitem_some, Hc).
  erewrite bind_ok by reflexivity.
  erewrite bind_ok by (unfold lift, py_truediv; rewrite Hz; reflexivity).
  erewrite bind_ok by reflexivity.
  erewrite bind_ok by reflexivity.
  erewrite bind_ok by (apply calulcate_stock_changes_ok; eassumption).
  erewrite bind_ok by (apply getitem_some, Hc).
  erewrite bind_ok by reflexivity.
  erewrite bind_ok by (apply getitem_some; rewrite !lookup_insert_ne by done; apply lookup_insert_eq).
  erewrite bind_ok by (apply getitem_some; rewrite lookup_insert_ne by done; apply lookup_insert_eq).
  erewrite bind_ok by (apply getitem_some; apply lookup_insert_eq).
  reflexivity.
Qed.

Lemma stock_api_invalid P stock info :
  info_of P stock = Ok info ->
  info !! "regularMarketPrice" = None ->
  run (stock_api P stock) =
    (Ok invalid_ticker_response, [GetInfo stock]).
Proof.
  intros Hi Hn. unfold run, stock_api, Ticker.
  erewrite bind_ok by (unfold get_info; rewrite Hi; reflexivity).
  now rewrite Hn.
Qed.

(** Every response the handler returns is one of the two above. *)
Lemma stock_api_inv P stock resp log :
  run (stock_api P stock) = (Ok resp, log) ->
  exists info, info_of P stock = Ok info /\
    ((info !! "regularMarketPrice" = None /\
      resp = invalid_ticker_response /\
      log = [GetInfo stock]) \/
     (exists c p s1 e1 s2 e2 s3 e3,
        valid_quote info c p /\
        window_closes P stock "1mo" s1 e1 /\
        window_closes P stock "6mo" s2 e2 /\
        window_closes P stock "1y" s3 e3 /\
        resp = {| status := 200;
                  body := quote_body stock c p s1 e1 s2 e2 s3 e3 |} /\
        log = [GetInfo stock; History stock "1mo"; History stock "6mo";
               History stock "1y"])).
Proof.
  intros H.
  destruct (info_of P stock) as [info|ex] eqn:Hi.
  2:{ unfold run, stock_api, Ticker in H.
      erewrite bind_raise in H by (unfold get_info; rewrite Hi; reflexivity).
      discriminate H. }
  exists info. split; [reflexivity|].
  destruct (info !! "regularMarketPrice") as [cv|] eqn:Hc.
  - right. pose proof H as H0. unfold run, stock_api, Ticker in H.
    erewrite bind_ok in H by (unfold get_info; rewrite Hi; reflexivity).
    rewrite Hc in H.
    apply bind_inv in H as (pv & l1 & Hp & H). apply getitem_inv in Hp as [Hp <-].
    apply bind_inv in H as (cv' & l2 & Hc' & H). apply getitem_inv in Hc' as [Hc' <-].
    assert (cv' = cv) as -> by congruence.
    apply bind_inv in H as (d & l3 & Hd & H). apply lift_inv in Hd as [Hd <-].
    apply bind_inv in H as (q & l4 & Hq & H). apply lift_inv in Hq as [Hq <-].
    destruct cv as [c| |], pv as [p| |]; try discriminate Hd.
    injection Hd as <-.
    unfold py_truediv in Hq. destruct (is_zero p) eqn:Hz; [discriminate Hq|].
    clear Hq.
    apply bind_inv in H as (pr & l5 & _ & H).
    apply bind_inv in H as (pc & l6 & _ & H).
    apply bind_inv in H as (hp & l7 & Hh & _).
    apply calulcate_stock_changes_inv in Hh
      as (s1 & e1 & s2 & e2 & s3 & e3 & W1 & W2 & W3).
    exists c, p, s1, e1, s2, e2, s3, e3.
    assert (V : valid_quote info c p) by (repeat split; assumption).
    rewrite (stock_api_valid P stock info c p s1 e1 s2 e2 s3 e3 Hi V W1 W2 W3) in H0.
    inversion H0. auto 10.
  - left. rewrite (stock_api_invalid P stock info Hi Hc) in H.
    inversion H. auto.
Qed.

(** ** The fields of a success response *)

Ltac body_lookup :=
  unfold quote_body; cbn [list_to_map foldr uncurry];
  rewrite ?lookup_insert_ne by done; apply lookup_insert_eq.

Lemma quote_body_stock stock c p s1 e1 s2 e2 s3 e3 :
  quote_body stock c p s1 e1 s2 e2 s3 e3 !! "stock" = Some (PyStr stock).
Proof. body_lookup. Qed.

Lemma quote_body_price stock c p s1 e1 s2 e2 s3 e3 :
  quote_body stock c p s1 e1 s2 e2 s3 e3 !! "price"
  = Some (PyFloat (float_round2 c)).
Proof. body_lookup. Qed.

Lemma quote_body_percent stock c p s1 e1 s2 e2 s3 e3 :
  quote_body stock c p s1 e1 s2 e2 s3 e3 !! "percent"
  = Some (PyFloat (float_round2 ((c - p) / p * 100)%float)).
Proof. body_lookup. Qed.

Lemma quote_body_1mo stock c p s1 e1 s2 e2 s3 e3 :
  quote_body stock c p s1 e1 s2 e2 s3 e3 !! "percent_1mo"
  = Some (window_percent s1 e1).
Proof. body_lookup. Qed.

Lemma quote_body_6mo stock c p s1 e1 s2 e2 s3 e3 :
  quote_body stock c p s1 e1 s2 e2 s3 e3 !! "percent_6mo"
  = Some (window_percent s2 e2).
Proof. body_lookup. Qed.

Lemma quote_body_1y stock c p s1 e1 s2 e2 s3 e3 :
  quote_body stock c p s1 e1 s2 e2 s3 e3 !! "percent_1y"
  = Some (window_percent s3 e3).
Proof. body_lookup. Qed.

Lemma quote_body_dom stock c p s1 e1 s2 e2 s3 e3 :
  dom (quote_body stock c p s1 e1 s2 e2 s3 e3) = quote_fields.
Proof.
  unfold quote_body, quote_fields. cbn [list_to_map foldr uncurry].
  rewrite !dom_insert_L, dom_empty_L. set_solver.
Qed.

(** A response with status 200 is the success record. *)
Lemma stock_api_200 P stock resp log :
  run (stock_api P stock) = (Ok resp, log) -> status resp = 200 ->
  exists info c p s1 e1 s2 e2 s3 e3,
    info_of P stock = Ok info /\ valid_quote info c p /\
    window_closes P stock "1mo" s1 e1 /\
    window_closes P stock "6mo" s2 e2 /\
    window_closes P stock "1y" s3 e3 /\
    body resp = quote_body stock c p s1 e1 s2 e2 s3 e3.
Proof.
  intros H Hs. apply stock_api_inv in H as (info & Hi & [(_ & -> & _) | H]).
  - discriminate Hs.
  - destruct H as (c & p & s1 & e1 & s2 & e2 & s3 & e3 & V & W1 & W2 & W3 & -> & _).
    exists info, c, p, s1, e1, s2, e2, s3, e3. auto 10.
Qed.

(** The closes of a series with a first and a last element. *)
Lemma last_cons_snoc (s e : float) (mid : list float) :
  last (s :: mid ++ [e]) = Some e.
Proof. now rewrite app_comm_cons, last_snoc. Qed.

Lemma stub_window_1mo info (cl : list float) h6 h12 stock s e :
  head cl = Some s -> last cl = Some e ->
  window_closes (stub_provider info (close_frame cl) h6 h12) stock "1mo" s e.
Proof. intros Hs He. exists {[ "Close" := cl ]}, cl. repeat split; auto. Qed.

Lemma stub_window_6mo info (cl : list float) h1 h12 stock s e :
  head cl = Some s -> last cl = Some e ->
  window_closes (stub_provider info h1 (close_frame cl) h12) stock "6mo" s e.
Proof. intros Hs He. exists {[ "Close" := cl ]}, cl. repeat split; auto. Qed.

Lemma stub_window_1y info (cl : list float) h1 h6 stock s e :
  head cl = Some s -> last cl = Some e ->
  window_closes (stub_provider info h1 h6 (close_frame cl)) stock "1y" s e.
Proof. intros Hs He. exists {[ "Close" := cl ]}, cl. repeat split; auto. Qed.

Lemma quote_info_valid (p c : float) :
  is_zero p = false -> valid_quote (quote_info p c) c p.
Proof.
  intros Hz. unfold valid_quote, quote_info. split; [| split; [| exact Hz]].
  - rewrite lookup_insert_ne by done. apply lookup_insert_eq.
  - apply lookup_insert_eq.
Qed.

(** ** Facts about the roundings *)

Lemma rne_div_nearest a b :
  0 < b ->
  2 * Z.abs (a - rne_div a b * b) <= b /\
  (2 * Z.abs (a - rne_div a b * b) = b -> Z.even (rne_div a b) = true).
Proof.
  intros Hb. unfold rne_div.
  pose proof (Z.div_mod a b ltac:(lia)) as Hdm.
  pose proof (Z.mod_pos_bound a b Hb) as Hr.
  destruct (Z.compare_spec (2 * (a mod b)) b) as [E | L | G].
  - destruct (Z.even (a / b)) eqn:Hev.
    + split; [nia | intros _; exact Hev].
    + split; [nia |]. intros _.
      replace (a / b + 1) with (Z.succ (a / b)) by lia.
      rewrite Z.even_succ, <- Z.negb_even, Hev. reflexivity.
  - split; [nia | intros H; nia].
  - split; [nia | intros H; nia].
Qed.

Lemma nearest_unique a b n n' :
  0 < b ->
  2 * Z.abs (a - n * b) <= b ->
  (2 * Z.abs (a - n * b) = b -> Z.even n = true) ->
  2 * Z.abs (a - n' * b) <= b ->
  (2 * Z.abs (a - n' * b) = b -> Z.even n' = true) ->
  n = n'.
Proof.
  intros Hb H1 E1 H2 E2.
  destruct (Z.lt_trichotomy n n') as [L | [E | L]]; [| exact E |].
  - assert (n' = n + 1) as -> by nia.
    assert (T1 : 2 * Z.abs (a - n * b) = b) by lia.
    assert (T2 : 2 * Z.abs (a - (n + 1) * b) = b) by lia.
    specialize (E1 T1). specialize (E2 T2).
    replace (n + 1) with (Z.succ n) in E2 by lia.
    rewrite Z.even_succ, <- Z.negb_even, E1 in E2. discriminate E2.
  - assert (n = n' + 1) as -> by nia.
    assert (T1 : 2 * Z.abs (a - (n' + 1) * b) = b) by lia.
    assert (T2 : 2 * Z.abs (a - n' * b) = b) by lia.
    specialize (E1 T1). specialize (E2 T2).
    replace (n' + 1) with (Z.succ n') in E1 by lia.
    rewrite Z.even_succ, <- Z.negb_even, E2 in E1. discriminate E1.
Qed.

(** The builtin [round(x, 2)] rounds to two decimal places. *)
Lemma float_round2_rounded (x : float) :
  rounded_to_hundredths x (float_round2 x).
Proof.
  unfold rounded_to_hundredths, float_round2.
  destruct (Prim2SF x) as [s | s | | s m e]; try reflexivity.
  destruct (0 <=? e)%Z eqn:Hle; [reflexivity |].
  apply Z.leb_gt in Hle.
  exists (rne_div (Zpos m * 100) (2 ^ (- e))).
  destruct (rne_div_nearest (Zpos m * 100) (2 ^ (- e))) as [Hn Ht];
    [apply Z.pow_pos_nonneg; lia |].
  split; [exact Hn | split; [exact Ht |]].
  unfold of_hundredths.
  destruct (rne_div (Zpos m * 100) (2 ^ (- e))); reflexivity.
Qed.

(** numpy's [round(x, 2)] multiplies, rounds to an integer and divides. *)
Lemma np_round2_steps (x : float) : times100_rint_div100 x (np_round2 x).
Proof.
  unfold times100_rint_div100, np_round2, rint.
  destruct (Prim2SF (x * 100)%float) as [s | s | | s m e]; try reflexivity.
  destruct (0 <=? e)%Z eqn:Hle; [reflexivity |].
  apply Z.leb_gt in Hle.
  exists (rne_div (Zpos m) (2 ^ (- e))).
  destruct (rne_div_nearest (Zpos m) (2 ^ (- e))) as [Hn Ht];
    [apply Z.pow_pos_nonneg; lia |].
  split; [exact Hn | split; [exact Ht | reflexivity]].
Qed.

(** A float has one rounding to two decimal places. *)
Lemma rounded_to_hundredths_unique (x r r' : float) :
  rounded_to_hundredths x r -> rounded_to_hundredths x r' -> r = r'.
Proof.
  unfold rounded_to_hundredths.
  destruct (Prim2SF x) as [s | s | | s m e]; try congruence.
  destruct (0 <=? e)%Z eqn:Hle; [congruence |].
  apply Z.leb_gt in Hle.
  intros (n & Hn & Tn & ->) (n' & Hn' & Tn' & ->).
  assert (n = n') as ->; [| reflexivity].
  apply (nearest_unique (Zpos m * 100) (2 ^ (- e))); auto.
  apply Z.pow_pos_nonneg; lia.
Qed.

Lemma rounding_run :
  run (stock_api rounding_provider "ACME") = (Ok rounding_response, rounding_log).
Proof. vm_compute. reflexivity. Qed.

(** ** The response contract *)

(** C1. When the info dictionary the provider answers has no
    [regularMarketPrice] key, the handler returns status 400 with the body
    [{"error": "Invalid ticker!"}], and the only provider call it makes is
    the info call: no history is fetched, for any period. *)
Theorem invalid_ticker_no_history P stock info :
  info_of P stock = Ok info ->
  info !! "regularMarketPrice" = None ->
  run (stock_api P stock)
  = (Ok {| status := 400; body := {[ "error" := PyStr "Invalid ticker!" ]} |},
     [GetInfo stock]) /\
  http_status (fst (run (stock_api P stock))) = 400 /\
  forall symbol period,
    History symbol period ∉ snd (run (stock_api P stock)).
Proof.
  intros Hi Hn. rewrite (stock_api_invalid P stock info Hi Hn).
  split; [reflexivity | split; [reflexivity |]].
  intros symbol period Hin. cbn [snd] in Hin.
  apply list_elem_of_singleton in Hin. discriminate Hin.
Qed.

(** An unknown symbol: yfinance answers a dictionary without price fields. *)
Lemma invalid_ticker_no_history_witness :
  run (stock_api
         (stub_provider (Ok {[ "trailingPegRatio" := PyNone ]})
            (close_frame []) (close_frame []) (close_frame []))
         "NOPE")
  = (Ok {| status := 400; body := {[ "error" := PyStr "Invalid ticker!" ]} |},
     [GetInfo "NOPE"]).
Proof.
  refine (proj1 (invalid_ticker_no_history
                   (stub_provider (Ok {[ "trailingPegRatio" := PyNone ]})
                      (close_frame []) (close_frame []) (close_frame []))
                   "NOPE" {[ "trailingPegRatio" := PyNone ]} _ _)).
  - reflexivity.
  - vm_compute. reflexivity.
Defined.

(** C9. The validity check looks only at the [regularMarketPrice] key: when
    that key is present and [previousClose] is absent, the handler does not
    return the 400 response; reading [previousClose] raises [KeyError], which
    nothing catches, right after the info call. *)
Theorem missing_previous_close_raises P stock info v :
  info_of P stock = Ok info ->
  info !! "regularMarketPrice" = Some v ->
  info !! "previousClose" = None ->
  run (stock_api P stock) = (Raise (KeyError "previousClose"), [GetInfo stock]) /\
  http_status (fst (run (stock_api P stock))) = 500.
Proof.
  intros Hi Hc Hp.
  assert (E : run (stock_api P stock)
              = (Raise (KeyError "previousClose"), [GetInfo stock])).
  { unfold run, stock_api, Ticker.
    erewrite bind_ok by (unfold get_info; rewrite Hi; reflexivity).
    rewrite Hc. erewrite bind_raise by (apply getitem_none, Hp). reflexivity. }
  rewrite E. split; reflexivity.
Qed.

Lemma missing_previous_close_raises_witness :
  fst (run (stock_api
              (stub_provider (Ok {[ "regularMarketPrice" := PyFloat 153 ]})
                 (close_frame [140; 153]%float) (close_frame [120; 153]%float)
                 (close_frame [100; 153]%float))
              "AAPL"))
  = Raise (KeyError "previousClose").
Proof.
  refine (f_equal fst
            (proj1 (missing_previous_close_raises
                      (stub_provider (Ok {[ "regularMarketPrice" := PyFloat 153 ]})
                         (close_frame [140; 153]%float)
                         (close_frame [120; 153]%float)
                         (close_frame [100; 153]%float))
                      "AAPL" {[ "regularMarketPrice" := PyFloat 153 ]}
                      (PyFloat 153) _ _ _))).
  - reflexivity.
  - vm_compute. reflexivity.
  - vm_compute. reflexivity.
Defined.

(** C10. In a success response the [stock] field is the path parameter
    itself, whatever the provider answers. *)
Theorem stock_field_echoes_ticker P stock resp log :
  run (stock_api P stock) = (Ok resp, log) ->
  status resp = 200 ->
  body resp !! "stock" = Some (PyStr stock).
Proof.
  intros H Hs.
  apply stock_api_200 in H
    as (info & c & p & s1 & e1 & s2 & e2 & s3 & e3 & _ & _ & _ & _ & _ & ->);
    [| exact Hs].
  apply quote_body_stock.
Qed.

Lemma demo_run : run (stock_api demo_provider "aapl") = (Ok demo_response, demo_log).
Proof. vm_compute. reflexivity. Qed.

Lemma stock_field_echoes_ticker_witness :
  body demo_response !! "stock" = Some (PyStr "aapl").
Proof.
  apply (stock_field_echoes_ticker demo_provider "aapl" demo_response demo_log).
  - exact demo_run.
  - reflexivity.
Defined.

(** C4. A response of the handler is either the 400 error response or a
    status 200 response whose body has exactly the six fields [stock],
    [price], [percent], [percent_1mo], [percent_6mo] and [percent_1y]; its
    [price] is the provider's [regularMarketPrice] rounded to two decimal
    places, to the nearest with ties to even. *)
Theorem success_response_fields P stock resp log :
  run (stock_api P stock) = (Ok resp, log) ->
  resp = {| status := 400; body := {[ "error" := PyStr "Invalid ticker!" ]} |} \/
  (status resp = 200 /\
   dom (body resp)
   = {[ "stock"; "price"; "percent"; "percent_1mo"; "percent_6mo";
        "percent_1y" ]} /\
   exists info c,
     info_of P stock = Ok info /\
     info !! "regularMarketPrice" = Some (PyFloat c) /\
     body resp !! "price" = Some (PyFloat (float_round2 c)) /\
     rounded_to_hundredths c (float_round2 c)).
Proof.
  intros H. apply stock_api_inv in H as (info & Hi & [(_ & -> & _) | H]).
  - left. reflexivity.
  - right.
    destruct H as (c & p & s1 & e1 & s2 & e2 & s3 & e3 & V & _ & _ & _ & -> & _).
    cbn [status body]. split; [reflexivity | split].
    + apply quote_body_dom.
    + exists info, c. destruct V as (Hc & _).
      auto using quote_body_price, float_round2_rounded.
Qed.

(** A price of 153.456 is reported as 153.46. *)
Lemma success_response_fields_witness :
  status rounding_response = 200 /\
  dom (body rounding_response)
  = {[ "stock"; "price"; "percent"; "percent_1mo"; "percent_6mo";
       "percent_1y" ]} /\
  body rounding_response !! "price" = Some (PyFloat 153.46) /\
  rounded_to_hundredths 153.456 153.46.
Proof.
  destruct (success_response_fields rounding_provider "ACME" rounding_response
              rounding_log rounding_run)
    as [E | (Hs & Hd & info & c & Hi & Hc & Hp & Hr)].
  - discriminate E.
  - split; [exact Hs | split; [exact Hd |]].
    injection Hi as <-. vm_compute in Hc. injection Hc as <-.
    replace (float_round2 153.456) with 153.46%float in Hp, Hr
      by (vm_compute; reflexivity).
    split; [exact Hp | exact Hr].
Defined.

(** ** The percent fields *)

(** C2. In a success response for a quote with regularMarketPrice [c] and
    previousClose [p], [p] not zero, the [percent] field is
    [(c - p) / p * 100] rounded to two decimal places, to the nearest with
    ties to even; for [p = 100] and [c = 110] it is [10.0]. *)
Theorem current_percent_field P stock info c p resp log :
  info_of P stock = Ok info ->
  info !! "regularMarketPrice" = Some (PyFloat c) ->
  info !! "previousClose" = Some (PyFloat p) ->
  is_zero p = false ->
  run (stock_api P stock) = (Ok resp, log) ->
  status resp = 200 /\
  body resp !! "percent"
  = Some (PyFloat (float_round2 ((c - p) / p * 100)%float)) /\
  rounded_to_hundredths ((c - p) / p * 100)%float
    (float_round2 ((c - p) / p * 100)%float) /\
  (p = 100%float -> c = 110%float ->
   body resp !! "percent" = Some (PyFloat 10)).
Proof.
  intros Hi Hc Hp Hz H.
  apply stock_api_inv in H as (info' & Hi' & [(Hn & _) | H]).
  - assert (info' = info) as -> by congruence. congruence.
  - destruct H as (c' & p' & s1 & e1 & s2 & e2 & s3 & e3 & V & _ & _ & _ & -> & _).
    assert (info' = info) as -> by congruence.
    destruct V as (Hc' & Hp' & _).
    assert (c' = c) as -> by congruence.
    assert (p' = p) as -> by congruence.
    cbn [status body]. rewrite quote_body_percent.
    split; [reflexivity | split; [reflexivity | split]].
    + apply float_round2_rounded.
    + intros -> ->. vm_compute. reflexivity.
Qed.

Lemma sample_run :
  run (stock_api sample_provider "MSFT") = (Ok sample_response, sample_log).
Proof. vm_compute. reflexivity. Qed.

(** From 140 to 153.456 the raw percent is 9.611428571428567: it is
    reported as 9.61. *)
Lemma current_percent_field_witness :
  body rounding_response !! "percent" = Some (PyFloat 9.61) /\
  rounded_to_hundredths ((153.456 - 140) / 140 * 100)%float 9.61.
Proof.
  destruct (current_percent_field rounding_provider "ACME"
              (quote_info 140 153.456) 153.456 140
              rounding_response rounding_log)
    as (_ & Hp & Hr & _).
  - reflexivity.
  - vm_compute. reflexivity.
  - vm_compute. reflexivity.
  - reflexivity.
  - exact rounding_run.
  - replace (float_round2 ((153.456 - 140) / 140 * 100)) with 9.61%float
      in Hp, Hr by (vm_compute; reflexivity).
    split; [exact Hp | exact Hr].
Defined.

(** C3, as amended. In a success response, for each period [1mo], [6mo]
    and [1y] whose [Close] column starts at [s] (not zero) and ends at [e],
    the field of that period is obtained from the raw percent
    [(e - s) / s * 100] by numpy's [round]: the raw percent is multiplied by
    100 in binary64, the product is rounded to the nearest integer with ties
    to even, and the integer is divided by 100 in binary64.  Only the first
    and the last close enter; closes from 50 to 55 give [10.0] and closes
    from 200 to 190 give [-5.0]. *)
Theorem window_percent_field P stock resp log period field fr closes s e :
  run (stock_api P stock) = (Ok resp, log) ->
  status resp = 200 ->
  (period, field) ∈ window_fields ->
  history_of P stock period = Ok fr ->
  fr !! "Close" = Some closes ->
  head closes = Some s ->
  last closes = Some e ->
  is_zero s = false ->
  body resp !! field
  = Some (PyFloat (np_round2 ((e - s) / s * 100)%float)) /\
  times100_rint_div100 ((e - s) / s * 100)%float
    (np_round2 ((e - s) / s * 100)%float) /\
  (s = 50%float -> e = 55%float ->
   body resp !! field = Some (PyFloat 10)) /\
  (s = 200%float -> e = 190%float ->
   body resp !! field = Some (PyFloat (-5))).
Proof.
  intros H Hs Hin Hh Hc Hhd Hla _.
  assert (W : window_closes P stock period s e)
    by (exists fr, closes; auto).
  apply stock_api_200 in H
    as (info & c & p & s1 & e1 & s2 & e2 & s3 & e3 & _ & _ & W1 & W2 & W3 & E);
    [| exact Hs].
  rewrite E.
  assert (F : quote_body stock c p s1 e1 s2 e2 s3 e3 !! field
              = Some (window_percent s e)).
  { unfold window_fields in Hin.
    repeat (apply elem_of_cons in Hin as [Hin | Hin]);
      [injection Hin as -> -> .. | apply elem_of_nil in Hin; contradiction].
    - destruct (window_closes_fun _ _ _ _ _ _ _ W W1) as [-> ->].
      apply quote_body_1mo.
    - destruct (window_closes_fun _ _ _ _ _ _ _ W W2) as [-> ->].
      apply quote_body_6mo.
    - destruct (window_closes_fun _ _ _ _ _ _ _ W W3) as [-> ->].
      apply quote_body_1y. }
  rewrite F. unfold window_percent.
  split; [reflexivity | split; [apply np_round2_steps |]].
  split; intros -> ->; vm_compute; reflexivity.
Qed.

(** Closes from 140 to 153: the raw percent 9.285714285714286 is reported
    as 9.29; closes from 50 to 55 and from 200 to 190 as in the spec. *)
Lemma window_percent_field_witness :
  body rounding_response !! "percent_6mo" = Some (PyFloat 9.29) /\
  body sample_response !! "percent_1mo" = Some (PyFloat 10) /\
  body sample_response !! "percent_6mo" = Some (PyFloat (-5)).
Proof.
  split; [| split].
  - assert (Hin : ("6mo", "percent_6mo") ∈ window_fields)
      by apply list_elem_of_further, list_elem_of_here.
    pose proof (proj1 (window_percent_field rounding_provider "ACME"
                         rounding_response rounding_log "6mo" "percent_6mo"
                         {[ "Close" := [140; 147; 153]%float ]}
                         [140; 147; 153]%float 140 153 rounding_run
                         eq_refl Hin eq_refl eq_refl eq_refl eq_refl eq_refl))
      as Hf.
    replace (np_round2 ((153 - 140) / 140 * 100)) with 9.29%float in Hf
      by (vm_compute; reflexivity).
    exact Hf.
  - refine (proj1 (proj2 (proj2 (window_percent_field sample_provider "MSFT"
                            sample_response sample_log "1mo" "percent_1mo"
                            {[ "Close" := [50; 52.25; 55]%float ]}
                            [50; 52.25; 55]%float 50 55
                            sample_run _ _ _ _ _ _ _))) _ _);
      try reflexivity.
    apply list_elem_of_here.
  - refine (proj2 (proj2 (proj2 (window_percent_field sample_provider "MSFT"
                            sample_response sample_log "6mo" "percent_6mo"
                            {[ "Close" := [200; 210.5; 190]%float ]}
                            [200; 210.5; 190]%float 200 190
                            sample_run _ _ _ _ _ _ _))) _ _);
      try reflexivity.
    apply list_elem_of_further, list_elem_of_here.
Defined.

Lemma float_literals_differ (x y : float) :
  Prim2SF x <> Prim2SF y -> x <> y.
Proof. intros H E. apply H. now rewrite E. Qed.

(** C3 as the claim states it fails: with closes from 40 to 326.97 the raw
    percent is 717.4250000000001, whose rounding to two decimal places is
    717.43, and the field reports 717.42. *)
Lemma window_percent_not_two_decimals :
  run (stock_api rounding_provider "ACME")
  = (Ok rounding_response, rounding_log) /\
  status rounding_response = 200 /\
  body rounding_response !! "percent_1mo" = Some (PyFloat 717.42) /\
  rounded_to_hundredths ((326.97 - 40) / 40 * 100)%float 717.43 /\
  ~ rounded_to_hundredths ((326.97 - 40) / 40 * 100)%float 717.42.
Proof.
  assert (R : rounded_to_hundredths ((326.97 - 40) / 40 * 100)%float 717.43).
  { pose proof (float_round2_rounded ((326.97 - 40) / 40 * 100)%float) as H.
    replace (float_round2 ((326.97 - 40) / 40 * 100)) with 717.43%float in H
      by (vm_compute; reflexivity).
    exact H. }
  split; [exact rounding_run | split; [reflexivity | split; [| split]]].
  - vm_compute. reflexivity.
  - exact R.
  - intros H.
    pose proof (rounded_to_hundredths_unique _ _ _ R H) as E.
    revert E. apply float_literals_differ. vm_compute. discriminate.
Qed.

(** ** Rounding *)



(** ** Determinism *)

(** C6. The outcome of a request (status, body, exception and calls made)
    depends on the provider only through its answers to the info call and to
    the three history calls for the ticker: two providers that agree on
    these give the same outcome. *)
Theorem stock_api_deterministic P1 P2 stock :
  info_of P1 stock = info_of P2 stock ->
  (forall period, period ∈ ["1mo"; "6mo"; "1y"] ->
     history_of P1 stock period = history_of P2 stock period) ->
  run (stock_api P1 stock) = run (stock_api P2 stock).
Proof.
  intros Hi Hh.
  pose proof (Hh "1mo" ltac:(set_solver)) as H1.
  pose proof (Hh "6mo" ltac:(set_solver)) as H2.
  pose proof (Hh "1y" ltac:(set_solver)) as H3.
  unfold run, stock_api, calulcate_stock_changes, for_dates, stock_change,
    get_info, history, Ticker.
  rewrite Hi, H1, H2, H3. reflexivity.
Qed.

Lemma stock_api_deterministic_witness :
  run (stock_api demo_provider "aapl") = run (stock_api other_provider "aapl").
Proof.
  apply (stock_api_deterministic demo_provider other_provider "aapl").
  - reflexivity.
  - intros period Hin.
    repeat (apply elem_of_cons in Hin as [-> | Hin]); try reflexivity.
    apply elem_of_nil in Hin. contradiction.
Defined.

(** ** Faults that nothing catches *)

Lemma for_dates_empty_raises P ticker dates :
  forall data log,
    (forall d, d ∈ dates ->
       exists (fr : frame) cl,
         history_of P ticker d = Ok fr /\ fr !! "Close" = Some cl) ->
    (exists d (fr : frame),
       d ∈ dates /\ history_of P ticker d = Ok fr /\ fr !! "Close" = Some []) ->
    exists log', for_dates P ticker dates data log = (Raise IndexError, log').
Proof.
  induction dates as [| date rest IH]; intros data log Hall (d & fr & Hin & Hh & Hc).
  - apply elem_of_nil in Hin. contradiction.
  - cbn [for_dates].
    destruct (Hall date ltac:(apply list_elem_of_here)) as (fr0 & cl & Hh0 & Hc0).
    destruct cl as [| x cl'].
    + eexists. eapply bind_raise, stock_change_empty; eassumption.
    + destruct (last (x :: cl')) as [y|] eqn:Hla;
        [| apply last_None in Hla; discriminate Hla].
      assert (W : window_closes P ticker date x y)
        by (exists fr0, (x :: cl'); auto).
      erewrite bind_ok by (apply stock_change_ok, W).
      apply IH.
      * intros d' Hd'. apply Hall. now apply list_elem_of_further.
      * apply elem_of_cons in Hin as [-> | Hin].
        -- congruence.
        -- exists d, fr. auto.
Qed.

Lemma stock_api_history_raise P stock info c p e log :
  info_of P stock = Ok info ->
  valid_quote info c p ->
  calulcate_stock_changes P stock [GetInfo stock] = (Raise e, log) ->
  run (stock_api P stock) = (Raise e, log).
Proof.
  intros Hi (Hc & Hp & Hz) H. unfold run, stock_api, Ticker.
  erewrite bind_ok by (unfold get_info; rewrite Hi; reflexivity).
  rewrite Hc.
  erewrite bind_ok by (apply getitem_some, Hp).
  erewrite bind_ok by (apply getitem_some, Hc).
  erewrite bind_ok by reflexivity.
  erewrite bind_ok by (unfold lift, py_truediv; rewrite Hz; reflexivity).
  erewrite bind_ok by reflexivity.
  erewrite bind_ok by reflexivity.
  erewrite bind_raise by exact H. reflexivity.
Qed.

(** C7. For a valid quote, when the frame of one of the three periods has
    an empty [Close] column the request ends in an exception that nothing
    catches, seen as a 500: neither the 400 response nor a success record is
    returned.  When the provider answers a frame with a [Close] column for
    each period, the exception is the [IndexError] of [iloc]. *)
Theorem empty_series_unhandled P stock info c p period fr :
  info_of P stock = Ok info ->
  info !! "regularMarketPrice" = Some (PyFloat c) ->
  info !! "previousClose" = Some (PyFloat p) ->
  is_zero p = false ->
  period ∈ ["1mo"; "6mo"; "1y"] ->
  history_of P stock period = Ok fr ->
  fr !! "Close" = Some [] ->
  (exists e log, run (stock_api P stock) = (Raise e, log)) /\
  http_status (fst (run (stock_api P stock))) = 500 /\
  ((forall d, d ∈ ["1mo"; "6mo"; "1y"] ->
      exists (fr' : frame) cl,
        history_of P stock d = Ok fr' /\ fr' !! "Close" = Some cl) ->
   fst (run (stock_api P stock)) = Raise IndexError).
Proof.
  intros Hi Hc Hp Hz Hin Hh Hcl.
  assert (R : exists e log, run (stock_api P stock) = (Raise e, log)).
  { destruct (run (stock_api P stock)) as [[resp | e] log] eqn:E;
      [| exists e, log; reflexivity].
    exfalso. apply stock_api_inv in E as (info' & Hi' & [(Hn & _) | H]).
    - assert (info' = info) as -> by congruence. congruence.
    - destruct H as (c' & p' & s1 & e1 & s2 & e2 & s3 & e3 & _ & W1 & W2 & W3 & _).
      assert (W : exists s e, window_closes P stock period s e).
      { repeat (apply elem_of_cons in Hin as [-> | Hin]); eauto.
        apply elem_of_nil in Hin. contradiction. }
      destruct W as (s & e & fr' & cl & Hh' & Hcl' & Hs & _).
      assert (fr' = fr) as -> by congruence.
      assert (cl = []) as -> by congruence.
      discriminate Hs. }
  split; [exact R | split].
  - destruct R as (e & log & ->). reflexivity.
  - intros Hall.
    destruct (for_dates_empty_raises P stock ["1mo"; "6mo"; "1y"] ∅
                [GetInfo stock] Hall) as (log' & E).
    { exists period, fr. auto. }
    rewrite (stock_api_history_raise P stock info c p IndexError log' Hi
               ltac:(repeat split; assumption) E).
    reflexivity.
Qed.

(** The 6mo frame comes back without rows. *)
Lemma empty_series_unhandled_witness :
  fst (run (stock_api
              (stub_provider (Ok (quote_info 150 153))
                 (close_frame [140; 153]%float) (close_frame [])
                 (close_frame [100; 153]%float))
              "AAPL"))
  = Raise IndexError.
Proof.
  refine (proj2 (proj2 (empty_series_unhandled
                          (stub_provider (Ok (quote_info 150 153))
                             (close_frame [140; 153]%float) (close_frame [])
                             (close_frame [100; 153]%float))
                          "AAPL" (quote_info 150 153) 153 150 "6mo"
                          {[ "Close" := [] ]} _ _ _ _ _ _ _)) _);
    try reflexivity.
  - apply list_elem_of_further, list_elem_of_here.
  - intros d Hd.
    repeat (apply elem_of_cons in Hd as [-> | Hd]);
      [eexists; eexists; split; [reflexivity | reflexivity] ..
      | apply elem_of_nil in Hd; contradiction].
Defined.

(** ** The scenario of the spec *)

(** C8. Ticker [AAPL], previous close 150.00 and price 153.00, and closes
    that run from 140.00, from 120.00 and from 100.00 to 153.00 over the
    three periods, whatever lies in between: the response is
    [{stock: "AAPL", price: 153.0, percent: 2.0, percent_1mo: 9.29,
    percent_6mo: 27.5, percent_1y: 53.0}], with status 200, after one info
    call and the three history calls. *)
Theorem aapl_scenario (mid1 mid2 mid3 : list float) :
  run (stock_api
         (stub_provider (Ok (quote_info 150 153))
            (close_frame (140 :: mid1 ++ [153])%float)
            (close_frame (120 :: mid2 ++ [153])%float)
            (close_frame (100 :: mid3 ++ [153])%float))
         "AAPL")
  = (Ok {| status := 200;
           body := list_to_map
                     [("stock", PyStr "AAPL");
                      ("price", PyFloat 153);
                      ("percent", PyFloat 2);
                      ("percent_1mo", PyFloat 9.29);
                      ("percent_6mo", PyFloat 27.5);
                      ("percent_1y", PyFloat 53)] |},
     [GetInfo "AAPL"; History "AAPL" "1mo"; History "AAPL" "6mo";
      History "AAPL" "1y"]).
Proof.
  rewrite (stock_api_valid _ "AAPL" (quote_info 150 153) 153 150
             140 153 120 153 100 153).
  - vm_compute. reflexivity.
  - reflexivity.
  - apply quote_info_valid. reflexivity.
  - apply stub_window_1mo; [reflexivity | apply last_cons_snoc].
  - apply stub_window_6mo; [reflexivity | apply last_cons_snoc].
  - apply stub_window_1y; [reflexivity | apply last_cons_snoc].
Qed.

(** ** The loop over the periods *)

(** One turn of the loop: one history call, then the percent of the window
    or the exception. *)
Lemma stock_change_observed P ticker date data log :
  stock_change P ticker date data log
  = (match observed_window (history_of P ticker date) with
     | Ok (s, e) => Ok (<[date := window_percent s e]> data)
     | Raise ex => Raise ex
     end,
     (log ++ [History ticker date])%list).
Proof.
  unfold stock_change, observed_window, history, mbind, M_bind.
  destruct (history_of P ticker date) as [fr | ex]; [| reflexivity].
  unfold getitem. destruct (fr !! "Close") as [closes |]; [| reflexivity].
  unfold mret, M_ret, iloc_first, iloc_last, lift.
  destruct closes as [| x rest]; [reflexivity |].
  cbn [head]. destruct (last (x :: rest)) as [y |] eqn:Hla; reflexivity.
Qed.

Lemma for_dates_log P ticker dates :
  forall data log,
  exists n,
    (n <= length dates)%nat /\
    snd (for_dates P ticker dates data log)
    = (log ++ map (History ticker) (take n dates))%list.
Proof.
  induction dates as [| date rest IH]; intros data log.
  - exists 0%nat. split; [reflexivity |]. cbn. now rewrite app_nil_r.
  - cbn [for_dates]. unfold mbind, M_bind.
    rewrite stock_change_observed.
    destruct (observed_window (history_of P ticker date)) as [[s e] | ex].
    + destruct (IH (<[date := window_percent s e]> data)
                  (log ++ [History ticker date])%list) as (n & Hn & E).
      exists (S n). split; [cbn; lia |].
      rewrite E. cbn [take map]. now rewrite <- app_assoc.
    + exists 1%nat. split; [cbn; lia |]. cbn [take map snd]. now rewrite take_0.
Qed.

Lemma for_dates_first_fault P ticker ex d post pre :
  forall data log,
    (forall d', d' ∈ pre ->
       exists s e, observed_window (history_of P ticker d') = Ok (s, e)) ->
    observed_window (history_of P ticker d) = Raise ex ->
    for_dates P ticker (pre ++ d :: post) data log
    = (Raise ex, (log ++ map (History ticker) (pre ++ [d]))%list).
Proof.
  induction pre as [| d0 pre IH]; intros data log Hpre Hd.
  - cbn [app for_dates]. unfold mbind, M_bind.
    rewrite stock_change_observed, Hd. reflexivity.
  - cbn [app for_dates]. unfold mbind, M_bind.
    rewrite stock_change_observed.
    destruct (Hpre d0 ltac:(apply list_elem_of_here)) as (s & e & ->).
    rewrite IH; [| intros d' Hd'; apply Hpre; now apply list_elem_of_further
                 | exact Hd].
    cbn [map app]. now rewrite <- app_assoc.
Qed.

Lemma for_dates_result P ticker dates :
  forall data log data' log',
    for_dates P ticker dates data log = (Ok data', log') ->
    dom data' = dom data ∪ list_to_set dates /\
    (forall k, k ∉ dates -> data' !! k = data !! k) /\
    (forall d, d ∈ dates ->
       exists s e, window_closes P ticker d s e /\
                   data' !! d = Some (window_percent s e)).
Proof.
  induction dates as [| date rest IH]; intros data log data' log' H.
  - cbn in H. apply ret_inv in H as [<- _].
    split; [set_solver | split; [reflexivity |]].
    intros d Hd. apply elem_of_nil in Hd. contradiction.
  - cbn [for_dates] in H. apply bind_inv in H as (d1 & l1 & H1 & H).
    apply stock_change_inv in H1 as (s & e & W & -> & ->).
    apply IH in H as (Hdom & Hout & Hin).
    split; [| split].
    + rewrite Hdom, dom_insert_L. set_solver.
    + intros k Hk. apply not_elem_of_cons in Hk as [Hne Hk].
      rewrite Hout by exact Hk. now rewrite lookup_insert_ne.
    + intros d Hd.
      destruct (decide (d ∈ rest)) as [Hr | Hr]; [now apply Hin |].
      apply elem_of_cons in Hd as [-> | Hd]; [| contradiction].
      exists s, e. split; [exact W |].
      rewrite Hout by exact Hr. apply lookup_insert_eq.
Qed.

(** ** Properties beyond the response contract *)

(** X1. The status seen by the client is 200, 400 or 500, and it is 400
    exactly when the provider answered an info dictionary without the
    [regularMarketPrice] key: no other fault is turned into a 400. *)
Theorem status_cases P stock :
  (http_status (fst (run (stock_api P stock))) = 200 \/
   http_status (fst (run (stock_api P stock))) = 400 \/
   http_status (fst (run (stock_api P stock))) = 500) /\
  (http_status (fst (run (stock_api P stock))) = 400 <->
   exists info,
     info_of P stock = Ok info /\ info !! "regularMarketPrice" = None).
Proof.
  destruct (run (stock_api P stock)) as [[resp | ex] log] eqn:E.
  - apply stock_api_inv in E as (info & Hi & [(Hn & -> & _) | H]).
    + split; [right; left; reflexivity |].
      split; [intros _; exists info; auto | reflexivity].
    + destruct H as (c & p & s1 & e1 & s2 & e2 & s3 & e3 & V & _ & _ & _ & -> & _).
      split; [left; reflexivity |]. cbn. split; [discriminate |].
      intros (info' & Hi' & Hn). destruct V as (Hc & _).
      assert (info' = info) as -> by congruence. congruence.
  - split; [right; right; reflexivity |]. cbn. split; [discriminate |].
    intros (info & Hi & Hn).
    rewrite (stock_api_invalid P stock info Hi Hn) in E. discriminate E.
Qed.

(** X2. For an info answer whose two price fields are floats, the
    handler returns a 200 response exactly when the previous close is not
    zero and the frame of each of the three periods has a [Close] column
    with at least one row. *)
Theorem success_iff P stock info c p :
  info_of P stock = Ok info ->
  info !! "regularMarketPrice" = Some (PyFloat c) ->
  info !! "previousClose" = Some (PyFloat p) ->
  ((exists resp log,
      run (stock_api P stock) = (Ok resp, log) /\ status resp = 200) <->
   (is_zero p = false /\
    exists s1 e1 s2 e2 s3 e3,
      window_closes P stock "1mo" s1 e1 /\
      window_closes P stock "6mo" s2 e2 /\
      window_closes P stock "1y" s3 e3)).
Proof.
  intros Hi Hc Hp. split.
  - intros (resp & log & H & Hs).
    apply stock_api_200 in H
      as (info' & c' & p' & s1 & e1 & s2 & e2 & s3 & e3 & Hi' & (Hc' & Hp' & Hz)
          & W1 & W2 & W3 & _); [| exact Hs].
    assert (info' = info) as -> by congruence.
    assert (p' = p) as -> by congruence.
    split; [exact Hz |]. exists s1, e1, s2, e2, s3, e3. auto.
  - intros (Hz & s1 & e1 & s2 & e2 & s3 & e3 & W1 & W2 & W3).
    eexists. eexists. split.
    + apply (stock_api_valid P stock info c p s1 e1 s2 e2 s3 e3); auto.
      repeat split; assumption.
    + reflexivity.
Qed.

(** The 6mo frame of this provider has no row: no 200 response. *)
Lemma success_iff_witness :
  ~ exists resp log,
      run (stock_api
             (stub_provider (Ok (quote_info 150 153))
                (close_frame [140; 153]%float) (close_frame [])
                (close_frame [100; 153]%float))
             "AAPL")
      = (Ok resp, log) /\ status resp = 200.
Proof.
  intros H.
  apply (success_iff
           (stub_provider (Ok (quote_info 150 153))
              (close_frame [140; 153]%float) (close_frame [])
              (close_frame [100; 153]%float))
           "AAPL" (quote_info 150 153) 153 150 eq_refl eq_refl eq_refl) in H.
  destruct H as (_ & s1 & e1 & s2 & e2 & s3 & e3 & _ & W2 & _).
  destruct W2 as (fr & closes & Hh & Hc & Hhd & _).
  injection Hh as <-. vm_compute in Hc. injection Hc as <-.
  discriminate Hhd.
Defined.

(** X3. Once the provider has answered the info call, the calls of the
    request are that info call followed by history calls on the same ticker
    for the periods [1mo], [6mo], [1y] in this order up to some point:
    never another period, never a period twice, never a period out of
    order. *)
Theorem provider_calls_prefix P stock info :
  info_of P stock = Ok info ->
  exists n,
    (n <= 3)%nat /\
    snd (run (stock_api P stock))
    = GetInfo stock :: map (History stock) (take n ["1mo"; "6mo"; "1y"]).
Proof.
  intros Hi.
  destruct (for_dates_log P stock ["1mo"; "6mo"; "1y"] ∅ [GetInfo stock])
    as (n & Hn & Hlog).
  unfold run, stock_api, Ticker, get_info, mbind, M_bind, getitem, lift,
    mret, M_ret.
  rewrite Hi. cbn [app].
  destruct (info !! "regularMarketPrice") as [cv |];
    [| exists 0%nat; split; [lia | reflexivity]].
  destruct (info !! "previousClose") as [pv |];
    [| exists 0%nat; split; [lia | reflexivity]].
  destruct (py_sub cv pv) as [d |]; [| exists 0%nat; split; [lia | reflexivity]].
  destruct (py_truediv d pv) as [q |]; [| exists 0%nat; split; [lia | reflexivity]].
  destruct (py_mul q (PyFloat 100)) as [pr |];
    [| exists 0%nat; split; [lia | reflexivity]].
  destruct (py_round2 pr) as [pc |]; [| exists 0%nat; split; [lia | reflexivity]].
  unfold calulcate_stock_changes.
  destruct (for_dates P stock ["1mo"; "6mo"; "1y"] ∅ [GetInfo stock])
    as [[hp | ex] log] eqn:E; cbn [snd] in Hlog; subst log;
    exists n; (split; [exact Hn |]).
  - destruct (py_round2 cv); [| reflexivity].
    destruct (hp !! "1mo"); [| reflexivity].
    destruct (hp !! "6mo"); [| reflexivity].
    destruct (hp !! "1y"); reflexivity.
  - reflexivity.
Qed.

Lemma provider_calls_prefix_witness :
  exists n,
    (n <= 3)%nat /\
    snd (run (stock_api edge_provider "NEWCO"))
    = GetInfo "NEWCO" :: map (History "NEWCO") (take n ["1mo"; "6mo"; "1y"]).
Proof.
  apply (provider_calls_prefix edge_provider "NEWCO" (quote_info 150 153)).
  reflexivity.
Defined.

(** X4. A previous close of zero, of either sign, ends the request in
    [ZeroDivisionError] right after the info call: the handler has no guard
    for it, and no history is fetched. *)
Theorem zero_previous_close_raises P stock info c p :
  info_of P stock = Ok info ->
  info !! "regularMarketPrice" = Some (PyFloat c) ->
  info !! "previousClose" = Some (PyFloat p) ->
  is_zero p = true ->
  run (stock_api P stock) = (Raise ZeroDivisionError, [GetInfo stock]) /\
  http_status (fst (run (stock_api P stock))) = 500.
Proof.
  intros Hi Hc Hp Hz.
  assert (E : run (stock_api P stock)
              = (Raise ZeroDivisionError, [GetInfo stock])).
  { unfold run, stock_api, Ticker.
    erewrite bind_ok by (unfold get_info; rewrite Hi; reflexivity).
    rewrite Hc.
    erewrite bind_ok by (apply getitem_some, Hp).
    erewrite bind_ok by (apply getitem_some, Hc).
    erewrite bind_ok by reflexivity.
    erewrite bind_raise by (unfold lift, py_truediv; rewrite Hz; reflexivity).
    reflexivity. }
  rewrite E. split; reflexivity.
Qed.

Lemma zero_previous_close_raises_witness :
  run (stock_api
         (stub_provider (Ok (quote_info (-0) 153))
            (close_frame [140; 153]%float) (close_frame [120; 153]%float)
            (close_frame [100; 153]%float))
         "AAPL")
  = (Raise ZeroDivisionError, [GetInfo "AAPL"]).
Proof.
  refine (proj1 (zero_previous_close_raises
                   (stub_provider (Ok (quote_info (-0) 153))
                      (close_frame [140; 153]%float)
                      (close_frame [120; 153]%float)
                      (close_frame [100; 153]%float))
                   "AAPL" (quote_info (-0) 153) 153 (-0) _ _ _ _));
    reflexivity.
Defined.

(** X5. When both price keys are present and one of them holds a string
    or [None], the request ends in [TypeError] right after the info call;
    the presence check of [regularMarketPrice] does not look at the
    value. *)
Theorem non_numeric_price_raises P stock info cv pv :
  info_of P stock = Ok info ->
  info !! "regularMarketPrice" = Some cv ->
  info !! "previousClose" = Some pv ->
  (forall f, cv <> PyFloat f) \/ (forall f, pv <> PyFloat f) ->
  run (stock_api P stock) = (Raise TypeError, [GetInfo stock]) /\
  http_status (fst (run (stock_api P stock))) = 500.
Proof.
  intros Hi Hc Hp Hnf.
  assert (S : py_sub cv pv = Raise TypeError).
  { destruct cv as [c | |], pv as [p | |]; try reflexivity.
    destruct Hnf as [H | H]; [destruct (H c) | destruct (H p)]; reflexivity. }
  assert (E : run (stock_api P stock) = (Raise TypeError, [GetInfo stock])).
  { unfold run, stock_api, Ticker.
    erewrite bind_ok by (unfold get_info; rewrite Hi; reflexivity).
    rewrite Hc.
    erewrite bind_ok by (apply getitem_some, Hp).
    erewrite bind_ok by (apply getitem_some, Hc).
    erewrite bind_raise by (unfold lift; rewrite S; reflexivity).
    reflexivity. }
  rewrite E. split; reflexivity.
Qed.

Lemma non_numeric_price_raises_witness :
  run (stock_api
         (stub_provider
            (Ok {[ "previousClose" := PyFloat 150;
                   "regularMarketPrice" := PyNone ]})
            (close_frame [140; 153]%float) (close_frame [120; 153]%float)
            (close_frame [100; 153]%float))
         "AAPL")
  = (Raise TypeError, [GetInfo "AAPL"]).
Proof.
  refine (proj1 (non_numeric_price_raises
                   (stub_provider
                      (Ok {[ "previousClose" := PyFloat 150;
                             "regularMarketPrice" := PyNone ]})
                      (close_frame [140; 153]%float)
                      (close_frame [120; 153]%float)
                      (close_frame [100; 153]%float))
                   "AAPL" _ PyNone (PyFloat 150) _ _ _ _)).
  - reflexivity.
  - reflexivity.
  - reflexivity.
  - left. intros f H. discriminate H.
Defined.

(** X6. For a valid quote, the first period whose history answer cannot be
    used (the provider raises, the frame has no [Close] column, or the
    column is empty) ends the request in that very exception, and the
    periods after it are not fetched. *)
Theorem first_window_fault_stops P stock info c p pre d post ex :
  info_of P stock = Ok info ->
  info !! "regularMarketPrice" = Some (PyFloat c) ->
  info !! "previousClose" = Some (PyFloat p) ->
  is_zero p = false ->
  ["1mo"; "6mo"; "1y"] = (pre ++ d :: post)%list ->
  (forall d', d' ∈ pre ->
     exists s e, observed_window (history_of P stock d') = Ok (s, e)) ->
  observed_window (history_of P stock d) = Raise ex ->
  run (stock_api P stock)
  = (Raise ex, GetInfo stock :: map (History stock) (pre ++ [d])%list).
Proof.
  intros Hi Hc Hp Hz Hsplit Hpre Hd.
  apply (stock_api_history_raise P stock info c p); [exact Hi | |].
  - repeat split; assumption.
  - unfold calulcate_stock_changes. rewrite Hsplit.
    now rewrite (for_dates_first_fault P stock ex d post pre ∅ [GetInfo stock]).
Qed.

(** The provider is down for the 6mo history: the 1y history is not
    asked for. *)
Lemma first_window_fault_stops_witness :
  run (stock_api
         (stub_provider (Ok (quote_info 150 153))
            (close_frame [140; 153]%float)
            (Raise (ProviderError "timeout"))
            (close_frame [100; 153]%float))
         "AAPL")
  = (Raise (ProviderError "timeout"),
     [GetInfo "AAPL"; History "AAPL" "1mo"; History "AAPL" "6mo"]).
Proof.
  refine (first_window_fault_stops
            (stub_provider (Ok (quote_info 150 153))
               (close_frame [140; 153]%float)
               (Raise (ProviderError "timeout"))
               (close_frame [100; 153]%float))
            "AAPL" (quote_info 150 153) 153 150 ["1mo"] "6mo" ["1y"]
            (ProviderError "timeout") _ _ _ _ _ _ _); try reflexivity.
  intros d' Hd'. apply list_elem_of_singleton in Hd' as ->.
  exists 140%float, 153%float. reflexivity.
Defined.

(** X7. When [calulcate_stock_changes] returns, it has made the three
    history calls in order, and the dictionary it returns has exactly the
    keys [1mo], [6mo] and [1y], each with the percent of its own window: the
    three lookups of the handler cannot miss. *)
Theorem calulcate_stock_changes_result P ticker log data log' :
  calulcate_stock_changes P ticker log = (Ok data, log') ->
  dom data = {[ "1mo"; "6mo"; "1y" ]} /\
  (forall d, d ∈ ["1mo"; "6mo"; "1y"] ->
     exists s e,
       window_closes P ticker d s e /\
       data !! d = Some (PyFloat (np_round2 ((e - s) / s * 100)%float))) /\
  log' = (log ++ [History ticker "1mo"; History ticker "6mo";
                  History ticker "1y"])%list.
Proof.
  intros H. pose proof H as H0. unfold calulcate_stock_changes in H.
  apply for_dates_result in H as (Hdom & _ & Hin).
  split; [| split].
  - rewrite Hdom, dom_empty_L. cbn [list_to_set]. set_solver.
  - exact Hin.
  - destruct (Hin "1mo" ltac:(set_solver)) as (s1 & e1 & W1 & _).
    destruct (Hin "6mo" ltac:(set_solver)) as (s2 & e2 & W2 & _).
    destruct (Hin "1y" ltac:(set_solver)) as (s3 & e3 & W3 & _).
    rewrite (calulcate_stock_changes_ok P ticker log s1 e1 s2 e2 s3 e3 W1 W2 W3)
      in H0.
    now inversion H0.
Qed.

Lemma calulcate_stock_changes_result_witness :
  dom (<["1y" := window_percent 100 153]>
         (<["6mo" := window_percent 120 153]>
            (<["1mo" := window_percent 140 153]> (∅ : gmap string pyval))))
  = {[ "1mo"; "6mo"; "1y" ]}.
Proof.
  refine (proj1 (calulcate_stock_changes_result demo_provider "aapl"
                   [GetInfo "aapl"] _ demo_log _)).
  vm_compute. reflexivity.
Defined.

Lemma for_dates_observed_eq P1 P2 ticker dates :
  (forall d, d ∈ dates ->
     observed_window (history_of P1 ticker d)
     = observed_window (history_of P2 ticker d)) ->
  forall data log,
    for_dates P1 ticker dates data log = for_dates P2 ticker dates data log.
Proof.
  induction dates as [| date rest IH]; intros Hobs data log; [reflexivity |].
  cbn [for_dates]. unfold mbind, M_bind. rewrite !stock_change_observed.
  rewrite (Hobs date ltac:(apply list_elem_of_here)).
  destruct (observed_window (history_of P2 ticker date)) as [[s e] | ex];
    [| reflexivity].
  apply IH. intros d Hd. apply Hobs. now apply list_elem_of_further.
Qed.

(** X8. The outcome of a request depends on the provider's answers only
    through the two keys [regularMarketPrice] and [previousClose] of the
    info dictionary and the first and last value of the [Close] column of
    each frame (or the exception met in reading them): other keys, other
    columns and the closes in between never change the status, the body,
    the exception or the calls made. *)
Theorem stock_api_reads_only P1 P2 stock :
  observed_quote (info_of P1 stock) = observed_quote (info_of P2 stock) ->
  (forall d, d ∈ ["1mo"; "6mo"; "1y"] ->
     observed_window (history_of P1 stock d)
     = observed_window (history_of P2 stock d)) ->
  run (stock_api P1 stock) = run (stock_api P2 stock).
Proof.
  intros Hq Hw.
  pose proof (for_dates_observed_eq P1 P2 stock ["1mo"; "6mo"; "1y"] Hw ∅
                [GetInfo stock]) as Hloop.
  unfold run, stock_api, Ticker, get_info, mbind, M_bind,
    calulcate_stock_changes.
  unfold observed_quote in Hq.
  destruct (info_of P1 stock) as [i1 | ex1], (info_of P2 stock) as [i2 | ex2];
    try discriminate Hq; [| now injection Hq as ->].
  injection Hq as Hc Hp. cbn [app].
  unfold getitem. rewrite Hc, Hp.
  destruct (i2 !! "regularMarketPrice") as [cv |]; [| reflexivity].
  destruct (i2 !! "previousClose") as [pv |]; [| reflexivity].
  unfold mret, M_ret, lift.
  destruct (py_sub cv pv) as [d |]; [| reflexivity].
  destruct (py_truediv d pv) as [q |]; [| reflexivity].
  destruct (py_mul q (PyFloat 100)) as [pr |]; [| reflexivity].
  destruct (py_round2 pr) as [pc |]; [| reflexivity].
  rewrite Hloop. reflexivity.
Qed.

Lemma stock_api_reads_only_witness :
  run (stock_api demo_provider "aapl") = run (stock_api noisy_provider "aapl").
Proof.
  apply (stock_api_reads_only demo_provider noisy_provider "aapl").
  - vm_compute. reflexivity.
  - intros d Hd.
    repeat (apply elem_of_cons in Hd as [-> | Hd]);
      [vm_compute; reflexivity .. | apply elem_of_nil in Hd; contradiction].
Defined.

(** ** Windows at the edge of the arithmetic *)

Lemma positive_cases (x : float) :
  (0 <? x)%float = true ->
  Prim2SF x = S754_infinity false \/
  exists m e, Prim2SF x = S754_finite false m e.
Proof.
  rewrite ltb_spec. change (Prim2SF 0) with (S754_zero false).
  destruct (Prim2SF x) as [s | s | | s m e]; cbn; try discriminate.
  - destruct s; [discriminate | auto].
  - destruct s; [discriminate | eauto].
Qed.

Lemma zero_start_percent (e : float) :
  (0 <? e)%float = true ->
  np_round2 ((e - 0) / 0 * 100)%float = infinity.
Proof.
  intros H.
  assert (E : ((e - 0) / 0)%float = infinity).
  { apply Prim2SF_inj. rewrite div_spec, sub_spec.
    change (Prim2SF 0) with (S754_zero false).
    change (Prim2SF infinity) with (S754_infinity false).
    destruct (positive_cases e H) as [-> | (m & ex & ->)]; reflexivity. }
  rewrite E. vm_compute. reflexivity.
Qed.

Lemma flat_percent (x : float) :
  (0 <? x)%float = true -> (x <? infinity)%float = true ->
  np_round2 ((x - x) / x * 100)%float = 0%float.
Proof.
  intros H Hfin.
  assert (E : ((x - x) / x)%float = 0%float).
  { apply Prim2SF_inj. rewrite div_spec, sub_spec.
    change (Prim2SF 0) with (S754_zero false).
    destruct (positive_cases x H) as [Hx | (m & ex & Hx)].
    - rewrite ltb_spec, Hx in Hfin. discriminate Hfin.
    - rewrite Hx. unfold SF64sub, SFsub, SF64div.
      rewrite Z.min_id. unfold shl_align. rewrite Z.sub_diag.
      reflexivity. }
  rewrite E. vm_compute. reflexivity.
Qed.

Lemma window_field_lookup P stock resp log period field s e :
  run (stock_api P stock) = (Ok resp, log) ->
  status resp = 200 ->
  (period, field) ∈ window_fields ->
  window_closes P stock period s e ->
  body resp !! field = Some (window_percent s e).
Proof.
  intros H Hs Hin W.
  apply stock_api_200 in H
    as (info & c & p & s1 & e1 & s2 & e2 & s3 & e3 & _ & _ & W1 & W2 & W3 & ->);
    [| exact Hs].
  unfold window_fields in Hin.
  repeat (apply elem_of_cons in Hin as [Hin | Hin]);
    [injection Hin as -> -> .. | apply elem_of_nil in Hin; contradiction].
  - destruct (window_closes_fun _ _ _ _ _ _ _ W W1) as [-> ->].
    apply quote_body_1mo.
  - destruct (window_closes_fun _ _ _ _ _ _ _ W W2) as [-> ->].
    apply quote_body_6mo.
  - destruct (window_closes_fun _ _ _ _ _ _ _ W W3) as [-> ->].
    apply quote_body_1y.
Qed.

Lemma edge_run :
  run (stock_api edge_provider "NEWCO") = (Ok edge_response, edge_log).
Proof. vm_compute. reflexivity. Qed.

(** X9. A window whose first close is zero and whose last close is
    positive does not fail: the division by zero of the loop is numpy's and
    does not raise, unlike the one on the previous close.  The response is
    returned and the field of the window is [infinity]. *)
Theorem zero_first_close_gives_infinity
    P stock resp log period field fr closes e :
  run (stock_api P stock) = (Ok resp, log) ->
  status resp = 200 ->
  (period, field) ∈ window_fields ->
  history_of P stock period = Ok fr ->
  fr !! "Close" = Some closes ->
  head closes = Some 0%float ->
  last closes = Some e ->
  (0 <? e)%float = true ->
  body resp !! field = Some (PyFloat infinity).
Proof.
  intros H Hs Hin Hh Hc Hhd Hla Hpos.
  rewrite (window_field_lookup P stock resp log period field 0 e H Hs Hin)
    by (exists fr, closes; auto).
  unfold window_percent. now rewrite zero_start_percent.
Qed.

Lemma zero_first_close_gives_infinity_witness :
  body edge_response !! "percent_1mo" = Some (PyFloat infinity).
Proof.
  refine (zero_first_close_gives_infinity edge_provider "NEWCO" edge_response
            edge_log "1mo" "percent_1mo" {[ "Close" := [0; 2.5; 5]%float ]}
            [0; 2.5; 5]%float 5 edge_run _ _ _ _ _ _ _); try reflexivity.
  apply list_elem_of_here.
Defined.

(** X10. A window whose first and last close are the same positive finite
    price, as in a frame with a single row, reports exactly [0.0]. *)
Theorem flat_window_gives_zero P stock resp log period field fr closes x :
  run (stock_api P stock) = (Ok resp, log) ->
  status resp = 200 ->
  (period, field) ∈ window_fields ->
  history_of P stock period = Ok fr ->
  fr !! "Close" = Some closes ->
  head closes = Some x ->
  last closes = Some x ->
  (0 <? x)%float = true ->
  (x <? infinity)%float = true ->
  body resp !! field = Some (PyFloat 0).
Proof.
  intros H Hs Hin Hh Hc Hhd Hla Hpos Hfin.
  rewrite (window_field_lookup P stock resp log period field x x H Hs Hin)
    by (exists fr, closes; auto).
  unfold window_percent. now rewrite flat_percent.
Qed.

Lemma flat_window_gives_zero_witness :
  body edge_response !! "percent_6mo" = Some (PyFloat 0).
Proof.
  refine (flat_window_gives_zero edge_provider "NEWCO" edge_response
            edge_log "6mo" "percent_6mo" {[ "Close" := [42.5]%float ]}
            [42.5]%float 42.5 edge_run _ _ _ _ _ _ _ _); try reflexivity.
  apply list_elem_of_further, list_elem_of_here.
Defined.

(** ** The logo script *)

Lemma string_length_app (a b : string) :
  String.length (a ++ b) = (String.length a + String.length b)%nat.
Proof. induction a as [| c a IH]; simpl; [reflexivity | now rewrite IH]. Qed.

Lemma logo_paths_differ (team_id : string) : team_id ++ ".ppm" <> "tmp.png".
Proof.
  intros H.
  assert (L : String.length team_id = 3%nat).
  { apply (f_equal String.length) in H. rewrite string_length_app in H.
    cbn in H. lia. }
  destruct team_id as [| a [| b [| c [| d rest]]]]; try discriminate L.
  simpl in H. injection H as _ _ _ H. discriminate H.
Qed.

(** A run that stops at a failed step: no removal in its log, and the
    write of [tmp.png] whenever the download succeeded. *)
Ltac logo_failed :=
  split;
  [ split;
    [ intros (path & Hin); cbn in Hin; set_solver
    | intros (c & i0 & i1 & Hc & Hw' & Ho' & Hr' & Hs'); congruence ]
  | intros c Hc; simplify_eq; cbn; set_solver ].

(** X11. The removal of [tmp.png] is the last step of [import_logo] and
    nothing guards it: it is attempted exactly when the download, the write,
    the opening, the resizing and the saving have all succeeded.  The
    downloaded bytes are written to [tmp.png] whenever the download
    succeeds, so a file that cannot be opened, resized or saved as an image
    leaves [tmp.png] behind. *)
Theorem logo_cleanup_only_on_success S team_div team_id :
  ((exists path,
      FileRemove path ∈ snd (run_io (import_logo S team_div team_id))) <->
   (exists content img img',
      http_get S (logo_url team_div team_id) = Ok content /\
      file_write S "tmp.png" content = Ok tt /\
      image_open S content = Ok img /\
      image_resize S img 25 25 = Ok img' /\
      image_save S img' (team_id ++ ".ppm") = Ok tt)) /\
  (forall content,
     http_get S (logo_url team_div team_id) = Ok content ->
     FileWrite "tmp.png" content
     ∈ snd (run_io (import_logo S team_div team_id))).
Proof.
  unfold run_io, import_logo, perform, mbind, IO_bind, LOGO_SIZE.
  destruct (http_get S (logo_url team_div team_id)) as [content | ex] eqn:Hg;
    [| logo_failed].
  destruct (file_write S "tmp.png" content) as [[] | ex] eqn:Hw;
    [| logo_failed].
  destruct (image_open S content) as [img | ex] eqn:Ho; [| logo_failed].
  destruct (image_resize S img 25 25) as [img' | ex] eqn:Hr; [| logo_failed].
  destruct (image_save S img' (team_id ++ ".ppm")) as [[] | ex] eqn:Hs;
    [| logo_failed].
  split; [| intros c Hc; simplify_eq; cbn; set_solver].
  split.
  - intros _. exists content, img, img'. repeat split; assumption.
  - intros _. exists "tmp.png". cbn. set_solver.
Qed.

(** X12. [import_logo] never removes the file it has saved: the logo goes
    to [team_id.ppm], which is not [tmp.png] for any team id. *)
Theorem logo_saved_file_kept S team_div team_id path :
  ImageSave path ∈ snd (run_io (import_logo S team_div team_id)) ->
  path = team_id ++ ".ppm" /\
  FileRemove path ∉ snd (run_io (import_logo S team_div team_id)).
Proof.
  pose proof (logo_paths_differ team_id) as Hne.
  unfold run_io, import_logo, perform, mbind, IO_bind, LOGO_SIZE.
  destruct (http_get S (logo_url team_div team_id)) as [content | ex];
    [| cbn; set_solver].
  destruct (file_write S "tmp.png" content) as [[] | ex]; [| cbn; set_solver].
  destruct (image_open S content) as [img | ex]; [| cbn; set_solver].
  destruct (image_resize S img 25 25) as [img' | ex]; [| cbn; set_solver].
  destruct (image_save S img' (team_id ++ ".ppm")) as [[] | ex];
    cbn; intros Hin; (split; [set_solver |]);
    assert (path = team_id ++ ".ppm") as -> by set_solver; set_solver.
Qed.

Lemma logo_saved_file_kept_witness :
  FileRemove "2309.ppm"
  ∉ snd (run_io (import_logo working_system "ncaa" "2309")).
Proof.
  refine (proj2 (logo_saved_file_kept working_system "ncaa" "2309"
                   "2309.ppm" _)).
  vm_compute. do 4 apply list_elem_of_further. apply list_elem_of_here.
Defined.

(** ** The exceptions of a request *)

Lemma for_dates_raise_inv P ticker dates :
  forall data log ex log',
    for_dates P ticker dates data log = (Raise ex, log') ->
    exists d, d ∈ dates /\ observed_window (history_of P ticker d) = Raise ex.
Proof.
  induction dates as [| date rest IH]; intros data log ex log' H.
  - discriminate H.
  - cbn [for_dates] in H. unfold mbind, M_bind in H.
    rewrite stock_change_observed in H.
    destruct (observed_window (history_of P ticker date)) as [[s e] | ex0] eqn:E.
    + apply IH in H as (d & Hd & Ho). exists d. split; [| exact Ho].
      now apply list_elem_of_further.
    + injection H as -> _. exists date. split; [apply list_elem_of_here | exact E].
Qed.

Lemma observed_window_raise (r : result frame) ex :
  observed_window r = Raise ex ->
  r = Raise ex \/ ex = KeyError "Close" \/ ex = IndexError.
Proof.
  unfold observed_window. destruct r as [fr | ex0]; [| intros [= ->]; auto].
  destruct (fr !! "Close") as [closes |]; [| intros [= <-]; auto].
  destruct (head closes), (last closes); intros [= <-]; auto.
Qed.

(** X13. For an info answer whose two price fields are floats, the
    exceptions the request can end in are [ZeroDivisionError] (the previous
    close is zero), the provider's own exception from one of the three
    history calls, [KeyError] on [Close] and [IndexError].  In particular
    the second read of [regularMarketPrice] and the lookups of the three
    periods in the dictionary of percents never raise. *)
Theorem exceptions_of_a_request P stock info c p ex :
  info_of P stock = Ok info ->
  info !! "regularMarketPrice" = Some (PyFloat c) ->
  info !! "previousClose" = Some (PyFloat p) ->
  fst (run (stock_api P stock)) = Raise ex ->
  (ex = ZeroDivisionError /\ is_zero p = true) \/
  (exists d, d ∈ ["1mo"; "6mo"; "1y"] /\ history_of P stock d = Raise ex) \/
  ex = KeyError "Close" \/
  ex = IndexError.
Proof.
  intros Hi Hc Hp.
  unfold run, stock_api, Ticker, get_info, mbind, M_bind, getitem, lift,
    mret, M_ret.
  rewrite Hi. cbn [app]. rewrite Hc, Hp.
  cbn [py_sub py_truediv].
  destruct (is_zero p); [intros [= <-]; left; auto |].
  cbn [py_mul py_round2].
  destruct (calulcate_stock_changes P stock [GetInfo stock])
    as [[hp | ex1] log] eqn:E.
  - apply calulcate_stock_changes_result in E as (_ & Hin & _).
    destruct (Hin "1mo" ltac:(set_solver)) as (s1 & e1 & _ & ->).
    destruct (Hin "6mo" ltac:(set_solver)) as (s2 & e2 & _ & ->).
    destruct (Hin "1y" ltac:(set_solver)) as (s3 & e3 & _ & ->).
    discriminate.
  - intros [= ->]. unfold calulcate_stock_changes in E.
    apply for_dates_raise_inv in E as (d & Hd & Ho).
    apply observed_window_raise in Ho as [Ho | [-> | ->]]; auto.
    right; left; exists d; auto.
Qed.

(** The 1y frame comes back without its [Close] column. *)
Lemma exceptions_of_a_request_witness :
  (KeyError "Close" = ZeroDivisionError /\ is_zero 150 = true) \/
  (exists d,
     d ∈ ["1mo"; "6mo"; "1y"] /\
     history_of (stub_provider (Ok (quote_info 150 153))
                   (close_frame [140; 153]%float)
                   (close_frame [120; 153]%float)
                   (Ok {[ "Open" := [100; 153]%float ]}))
       "AAPL" d
     = Raise (KeyError "Close")) \/
  KeyError "Close" = KeyError "Close" \/
  KeyError "Close" = IndexError.
Proof.
  apply (exceptions_of_a_request
           (stub_provider (Ok (quote_info 150 153))
              (close_frame [140; 153]%float)
              (close_frame [120; 153]%float)
              (Ok {[ "Open" := [100; 153]%float ]}))
           "AAPL" (quote_info 150 153) 153 150 (KeyError "Close")
           eq_refl eq_refl eq_refl).
  vm_compute. reflexivity.
Defined.
